(** * The chat gateway of main.py: authentication, query extraction,
      normalisation of the backend reply and the emulated stream.

    The handlers of main.py are embedded as functions over the Python
    values they manipulate.  Exceptions are explicit ([result]), the
    backend call is recorded in a log of posted bodies ([io]), and the
    frames a generator yields are collected in order ([gen]).

    The log lines of the handlers are left out: they return nothing, and
    what they format (identifiers, the messages and the payload, all JSON
    data) cannot make them raise.  The logging middleware class is not
    installed on the application and is left out as well. *)

From Stdlib Require Import List String Ascii ZArith Bool Lia.
From Stdlib Require Import DecimalString.
Import ListNotations.
Local Open Scope string_scope.
Local Open Scope Z_scope.
Set Warnings "-register-all".

(** ** Python values *)

(** What [response.json()] and the request body can hold, plus [bytes],
    the stock example of an object [json.dumps] refuses.  A [str] is a
    [string] whose characters are the code points below 256; a float is
    carried by its [repr]; a dict keeps its insertion order. *)
Inductive value : Type :=
| PyNone
| PyBool (b : bool)
| PyInt (z : Z)
| PyFloat (repr : string)
| PyStr (s : string)
| PyBytes (b : string)
| PyList (l : list value)
| PyDict (kv : list (string * value)).

(** ** Exceptions *)

Inductive exn : Type :=
| HTTPException (status_code : Z) (detail : string)
                (headers : list (string * string))
| KeyError (key : string)
| TypeError (msg : string)
| AttributeError (msg : string)
| JSONDecodeError (msg : string)
| RequestException (msg : string).

Inductive result (A : Type) : Type :=
| Ok (a : A)
| Raise (e : exn).
Arguments Ok {A} a.
Arguments Raise {A} e.

Module ResultMonad.
Definition bind {A B} (m : result A) (f : A -> result B) : result B :=
  match m with
  | Ok a => f a
  | Raise e => Raise e
  end.
End ResultMonad.

Declare Scope result_scope.
Delimit Scope result_scope with result.
Notation "x <- m ;; k" := (ResultMonad.bind m (fun x => k))
  (at level 61, m at next level, right associativity) : result_scope.

(** ** Strings *)

Definition nl : string := String (ascii_of_nat 10) EmptyString.
Definition dquote : ascii := ascii_of_nat 34.
Definition squote : ascii := ascii_of_nat 39.
Definition backslash : ascii := ascii_of_nat 92.

Definition chr (a : ascii) : string := String a EmptyString.

(** [s[n:]] *)
Fixpoint slice_from (n : nat) (s : string) : string :=
  match n, s with
  | O, _ => s
  | S n', String _ s' => slice_from n' s'
  | S _, EmptyString => EmptyString
  end.

(** [s[:n]] *)
Fixpoint slice_to (n : nat) (s : string) : string :=
  match n, s with
  | S n', String a s' => String a (slice_to n' s')
  | _, _ => EmptyString
  end.

(** [s.startswith(p)] *)
Fixpoint startswith (s p : string) {struct p} : bool :=
  match p with
  | EmptyString => true
  | String a p' =>
      match s with
      | EmptyString => false
      | String b s' => Ascii.eqb b a && startswith s' p'
      end
  end.

Fixpoint contains_char (c : ascii) (s : string) : bool :=
  match s with
  | EmptyString => false
  | String a s' => Ascii.eqb a c || contains_char c s'
  end.

(** [sep.join(parts)] *)
Fixpoint join (sep : string) (parts : list string) : string :=
  match parts with
  | [] => EmptyString
  | [p] => p
  | p :: rest => p ++ sep ++ join sep rest
  end.

(** [str(i)] for an int *)
Definition str_int (z : Z) : string := NilZero.string_of_int (Z.to_int z).

Definition hex_digit (n : N) : ascii :=
  if (n <? 10)%N then ascii_of_N (48 + n) else ascii_of_N (87 + n).

Definition hex2 (a : ascii) : string :=
  let n := N_of_ascii a in
  String (hex_digit (n / 16)) (String (hex_digit (n mod 16)) EmptyString).

(** ** repr and str *)

(** The quote [repr] wraps a string in: double only when the string has a
    single quote and no double quote. *)
Definition repr_quote (s : string) : ascii :=
  if contains_char squote s && negb (contains_char dquote s)
  then dquote else squote.

(** Code points below 256 that [str.isprintable] accepts. *)
Definition printable_latin1 (n : N) : bool :=
  ((32 <=? n) && (n <? 127) || (161 <=? n) && negb (n =? 173))%N.

Definition repr_char (printable : N -> bool) (q a : ascii) : string :=
  let n := N_of_ascii a in
  if Ascii.eqb a q || Ascii.eqb a backslash then String backslash (chr a)
  else if (n =? 9)%N then String backslash "t"
  else if (n =? 10)%N then String backslash "n"
  else if (n =? 13)%N then String backslash "r"
  else if printable n then chr a
  else String backslash ("x" ++ hex2 a).

Fixpoint repr_chars (printable : N -> bool) (q : ascii) (s : string)
  : string :=
  match s with
  | EmptyString => EmptyString
  | String a s' => repr_char printable q a ++ repr_chars printable q s'
  end.

Definition repr_str (s : string) : string :=
  let q := repr_quote s in
  chr q ++ repr_chars printable_latin1 q s ++ chr q.

Definition printable_ascii (n : N) : bool := ((32 <=? n) && (n <? 127))%N.

Definition repr_bytes (b : string) : string :=
  let q := repr_quote b in
  "b" ++ chr q ++ repr_chars printable_ascii q b ++ chr q.

Fixpoint py_repr (v : value) : string :=
  match v with
  | PyNone => "None"
  | PyBool true => "True"
  | PyBool false => "False"
  | PyInt z => str_int z
  | PyFloat r => r
  | PyStr s => repr_str s
  | PyBytes b => repr_bytes b
  | PyList l => "[" ++ join ", " (map py_repr l) ++ "]"
  | PyDict kv =>
      "{" ++ join ", "
               (map (fun p => repr_str (fst p) ++ ": " ++ py_repr (snd p)) kv)
          ++ "}"
  end.

(** [str(v)], which is also what an f-string puts for [{v}]. *)
Definition py_str (v : value) : string :=
  match v with
  | PyStr s => s
  | _ => py_repr v
  end.

(** [type(v).__name__] *)
Definition type_name (v : value) : string :=
  match v with
  | PyNone => "NoneType"
  | PyBool _ => "bool"
  | PyInt _ => "int"
  | PyFloat _ => "float"
  | PyStr _ => "str"
  | PyBytes _ => "bytes"
  | PyList _ => "list"
  | PyDict _ => "dict"
  end.

(** [str(e)] *)
Definition str_exn (e : exn) : string :=
  match e with
  | HTTPException c d _ => str_int c ++ ": " ++ d
  | KeyError k => repr_str k
  | TypeError m | AttributeError m | JSONDecodeError m
  | RequestException m => m
  end.

(** ** Builtin operations the handlers use *)

(** [bool(v)] *)
Definition truthy (v : value) : bool :=
  match v with
  | PyNone => false
  | PyBool b => b
  | PyInt z => negb (z =? 0)
  | PyFloat r => negb (String.eqb r "0.0" || String.eqb r "-0.0")
  | PyStr s | PyBytes s => negb (String.eqb s EmptyString)
  | PyList l => match l with [] => false | _ => true end
  | PyDict kv => match kv with [] => false | _ => true end
  end.

(** [v == s] for a str [s] *)
Definition eq_str (v : value) (s : string) : bool :=
  match v with
  | PyStr t => String.eqb t s
  | _ => false
  end.

Fixpoint dict_lookup (k : string) (kv : list (string * value))
  : option value :=
  match kv with
  | [] => None
  | (k', v) :: rest => if String.eqb k' k then Some v else dict_lookup k rest
  end.

(** [k in d] *)
Definition dict_contains (k : string) (kv : list (string * value)) : bool :=
  match dict_lookup k kv with Some _ => true | None => false end.

(** [d[k]] *)
Definition dict_getitem (kv : list (string * value)) (k : string)
  : result value :=
  match dict_lookup k kv with
  | Some v => Ok v
  | None => Raise (KeyError k)
  end.

(** [d.get(k, default)] on a dict *)
Definition dict_get (kv : list (string * value)) (k : string)
    (default : value) : value :=
  match dict_lookup k kv with
  | Some v => v
  | None => default
  end.

(** [v.get(k, default)] on any value: only a dict has the method. *)
Definition py_get (v : value) (k : string) (default : value)
  : result value :=
  match v with
  | PyDict kv => Ok (dict_get kv k default)
  | _ => Raise (AttributeError
                  ("'" ++ type_name v ++ "' object has no attribute 'get'"))
  end.

Definition chars (s : string) : list value :=
  map (fun a => PyStr (chr a)) (list_ascii_of_string s).

(** [iter(v)], run to the end *)
Definition py_iter (v : value) : result (list value) :=
  match v with
  | PyList l => Ok l
  | PyStr s => Ok (chars s)
  | PyBytes b =>
      Ok (map (fun a => PyInt (Z.of_N (N_of_ascii a)))
              (list_ascii_of_string b))
  | PyDict kv => Ok (map (fun p => PyStr (fst p)) kv)
  | _ => Raise (TypeError ("'" ++ type_name v ++ "' object is not iterable"))
  end.

(** [v += s] for a str [s]: a str is concatenated, a list is extended by
    the characters of [s], anything else has no such operation. *)
Definition py_iadd_str (v : value) (s : string) : result value :=
  match v with
  | PyStr t => Ok (PyStr (t ++ s))
  | PyList l => Ok (PyList (l ++ chars s)%list)
  | PyBytes _ => Raise (TypeError "can't concat str to bytes")
  | _ => Raise (TypeError ("unsupported operand type(s) for +=: '"
                           ++ type_name v ++ "' and 'str'"))
  end.

(** ** json.dumps *)

Definition escape_char (a : ascii) : string :=
  let n := N_of_ascii a in
  if Ascii.eqb a dquote || Ascii.eqb a backslash then String backslash (chr a)
  else if (n =? 8)%N then String backslash "b"
  else if (n =? 12)%N then String backslash "f"
  else if (n =? 10)%N then String backslash "n"
  else if (n =? 13)%N then String backslash "r"
  else if (n =? 9)%N then String backslash "t"
  else if printable_ascii n then chr a
  else String backslash ("u00" ++ hex2 a).

Fixpoint escape_chars (s : string) : string :=
  match s with
  | EmptyString => EmptyString
  | String a s' => escape_char a ++ escape_chars s'
  end.

Definition json_string (s : string) : string :=
  chr dquote ++ escape_chars s ++ chr dquote.

Definition json_float (r : string) : string :=
  if String.eqb r "nan" then "NaN"
  else if String.eqb r "inf" then "Infinity"
  else if String.eqb r "-inf" then "-Infinity"
  else r.

(** [all] of a list of outcomes, in order: the first exception wins. *)
Fixpoint sequence {A} (l : list (result A)) : result (list A) :=
  match l with
  | [] => Ok []
  | m :: rest =>
      (a <- m ;; r <- sequence rest ;; Ok (a :: r))%result
  end.

(** [json.dumps(v)] with the default settings (ASCII only, separators
    [", "] and [": "]). *)
Fixpoint json_dumps (v : value) : result string :=
  match v with
  | PyNone => Ok "null"
  | PyBool true => Ok "true"
  | PyBool false => Ok "false"
  | PyInt z => Ok (str_int z)
  | PyFloat r => Ok (json_float r)
  | PyStr s => Ok (json_string s)
  | PyBytes _ =>
      Raise (TypeError ("Object of type " ++ type_name v
                        ++ " is not JSON serializable"))
  | PyList l =>
      (parts <- sequence (map json_dumps l) ;;
       Ok ("[" ++ join ", " parts ++ "]"))%result
  | PyDict kv =>
      (parts <- sequence
                  (map (fun p =>
                          (s <- json_dumps (snd p) ;;
                           Ok (json_string (fst p) ++ ": " ++ s)))
                       kv) ;;
       Ok ("{" ++ join ", " parts ++ "}"))%result
  end.

(** ** Effects: a log of what was emitted, and an outcome *)

(** A computation that emits items of type [L] (bodies posted to the
    backend for a handler, frames yielded for a generator) and then
    returns or raises.  What was emitted before an exception stays. *)
Definition W (L A : Type) : Type := (list L * result A)%type.

Module WMonad.
Definition ret {L A} (a : A) : W L A := ([], Ok a).
Definition raise {L A} (e : exn) : W L A := ([], Raise e).
Definition lift {L A} (m : result A) : W L A := ([], m).
Definition emit {L} (x : L) : W L unit := ([x], Ok tt).
Definition bind {L A B} (m : W L A) (f : A -> W L B) : W L B :=
  match m with
  | (l, Ok a) => let (l', r) := f a in ((l ++ l')%list, r)
  | (l, Raise e) => (l, Raise e)
  end.
(** [try: body  except Exception as e: handler e] *)
Definition try_except {L A} (body : W L A) (handler : exn -> W L A)
  : W L A :=
  match body with
  | (l, Ok a) => (l, Ok a)
  | (l, Raise e) => let (l', r) := handler e in ((l ++ l')%list, r)
  end.
End WMonad.
Import WMonad.

Declare Scope w_scope.
Delimit Scope w_scope with W.
Notation "x <- m ;; k" := (WMonad.bind m (fun x => k))
  (at level 61, m at next level, right associativity) : w_scope.
Notation "m ;; k" := (WMonad.bind m (fun _ => k))
  (at level 61, right associativity) : w_scope.

Definition emitted {L A} (m : W L A) : list L := fst m.
Definition outcome {L A} (m : W L A) : result A := snd m.

(** ** The data of a request *)

Record ChatRequest : Type := {
  messages : list (list (string * value));
  stream : bool
}.

(** What the handler sees of a [requests.Response]: the status and what
    [.json()] gives, an exception when the body is not JSON. *)
Record Response : Type := {
  status_code : Z;
  json : result value
}.

(** [bool(response)] is [response.ok]: no 4xx or 5xx status. *)
Definition response_ok (r : Response) : bool :=
  negb ((400 <=? status_code r) && (status_code r <? 600)).

(** A generator is kept as its run: the frames in order and how it ended. *)
Definition gen : Type := W string unit.

Inductive reply : Type :=
| JSONBody (body : value)
| StreamingResponse (content : gen) (media_type : string).

Definition io : Type -> Type := W value.

Definition model_name : string := "red-hat-console-agent".
Definition DONE : string := "data: [DONE]" ++ nl ++ nl.

(** [f"data: {s}\n\n"] *)
Definition data_frame (s : string) : string := "data: " ++ s ++ nl ++ nl.

Section Gateway.

(** The configured secret, [AGENT_BEARER_TOKEN]. *)
Variable REQUIRED_BEARER_TOKEN : string.
(** The network: what [requests.post] does with a JSON body. *)
Variable requests_post : value -> result Response.
(** [str(uuid.uuid4())] drawn for the completion id, and
    [int(time.time())] read for [created]. *)
Variable uuid4 : string.
Variable now : Z.
(** [str(uuid.uuid4())] drawn for the request id of the log lines. *)
Variable request_uuid4 : string.

Definition unauthorized (detail : string) : exn :=
  HTTPException 401 detail [("WWW-Authenticate", "Bearer")].

Definition verify_bearer_token (authorization : option string)
  : result string :=
  match authorization with
  | None => Raise (unauthorized "Authorization header required")
  | Some a =>
      if negb (truthy (PyStr a)) then
        Raise (unauthorized "Authorization header required")
      else if negb (startswith a "Bearer ") then
        Raise (unauthorized "Authorization header must start with 'Bearer '")
      else
        let token := slice_from 7 a in
        if negb (String.eqb token REQUIRED_BEARER_TOKEN) then
          Raise (unauthorized "Invalid bearer token")
        else Ok token
  end.

(** [RedHatConsoleClient.send_message]: one POST; any exception of the
    call becomes [None]. *)
Definition send_message (message : value) : io (option Response) :=
  let payload := PyDict [("input", PyDict [("text", message)])] in
  (emit payload ;;
   match requests_post payload with
   | Ok response => ret (Some response)
   | Raise _ => ret None
   end)%W.

Definition agents_descriptor : value :=
  PyDict [("agents", PyList [PyDict [
    ("name", PyStr "Red Hat Console Agent");
    ("description", PyStr "Connects to the Red Hat Console Virtual Assistant API for Red Hat product assistance");
    ("provider", PyDict [("organization", PyStr "Red Hat");
                         ("url", PyStr "https://redhat.com")]);
    ("version", PyStr "1.0.0");
    ("documentation_url", PyStr "https://access.redhat.com");
    ("capabilities", PyDict [("streaming", PyBool true)])]])].

Definition discover_agents (token : string) : io value :=
  ret agents_descriptor.

(** [[msg for msg in messages if msg["role"] == "user"]] *)
Fixpoint user_messages_of (msgs : list (list (string * value)))
  : result (list (list (string * value))) :=
  match msgs with
  | [] => Ok []
  | msg :: rest =>
      (role <- dict_getitem msg "role" ;;
       tl <- user_messages_of rest ;;
       Ok (if eq_str role "user" then msg :: tl else tl))%result
  end.

(** The loop over [enumerate(options, 1)], at index [i]. *)
Fixpoint append_options (i : Z) (options : list value)
    (response_content : value) : result value :=
  match options with
  | [] => Ok response_content
  | option :: rest =>
      (option_text <- py_get option "text" (PyStr ("Option " ++ str_int i)) ;;
       response_content <-
         py_iadd_str response_content
                     (nl ++ str_int i ++ ". " ++ py_str option_text) ;;
       append_options (i + 1) rest response_content)%result
  end.

(** The guard of the extraction: a dict with a ['response'] key holding
    a non-empty list whose first element is a dict. *)
Definition first_response_item (response_data : value)
  : option (list (string * value)) :=
  match response_data with
  | PyDict d =>
      match dict_lookup "response" d with
      | Some (PyList (PyDict response_item :: _)) => Some response_item
      | _ => None
      end
  | _ => None
  end.

(** The body of the [try] in [chat_completion]. *)
Definition parse_response (response : Response) : result value :=
  (response_data <- json response ;;
   match first_response_item response_data with
   | Some response_item =>
       let response_content :=
         dict_get response_item "text" (PyStr "No response text") in
       if eq_str (dict_get response_item "type" PyNone) "OPTIONS"
          && dict_contains "options" response_item
       then
         options <- dict_getitem response_item "options" ;;
         if truthy options then
           response_content <-
             py_iadd_str response_content (nl ++ nl ++ "Options:") ;;
           items <- py_iter options ;;
           append_options 1 items response_content
         else Ok response_content
       else Ok response_content
   | None => Ok (PyStr (py_str response_data))
   end)%result.

Definition invalid_response : exn :=
  HTTPException 500 "Invalid response from Red Hat Console API" [].

Definition backend_failed : exn :=
  HTTPException 500 "Failed to get response from Red Hat Console API" [].

(** The [try] with its [except Exception]. *)
Definition normalize (response : Response) : result value :=
  match parse_response response with
  | Ok response_content => Ok response_content
  | Raise _ => Raise invalid_response
  end.

Definition completion_id : string := "chatcmpl-" ++ slice_to 8 uuid4.

Definition chunk (delta : value) (finish_reason : value) : value :=
  PyDict [("id", PyStr completion_id);
          ("object", PyStr "chat.completion.chunk");
          ("created", PyInt now);
          ("model", PyStr model_name);
          ("choices", PyList [PyDict [("index", PyInt 0);
                                      ("delta", delta);
                                      ("finish_reason", finish_reason)]])].

Definition simulate_streaming_response (response_content : value)
    (request_id : string) : gen :=
  try_except
    (let chunk_response :=
       chunk (PyDict [("content", response_content)]) PyNone in
     s <- lift (json_dumps chunk_response) ;;
     emit (data_frame s) ;;
     let final_chunk := chunk (PyDict []) (PyStr "stop") in
     s <- lift (json_dumps final_chunk) ;;
     emit (data_frame s) ;;
     emit DONE)%W
    (fun e =>
       let error_chunk :=
         chunk (PyDict [("content", PyStr ("Error: " ++ str_exn e))])
               (PyStr "stop") in
       s <- lift (json_dumps error_chunk) ;;
       emit (data_frame s) ;;
       emit DONE)%W.

Definition chat_completion (request : ChatRequest)
    (x_ibm_thread_id : option string) (token : string) : io reply :=
  (user_messages <- lift (user_messages_of (messages request)) ;;
   if negb (truthy (PyList (map PyDict user_messages))) then
     raise (HTTPException 400 "No user message found" [])
   else
     query <- lift (dict_getitem (last user_messages []) "content") ;;
     response <- send_message query ;;
     match response with
     | None => raise backend_failed
     | Some response =>
         if negb (response_ok response)
            || negb (status_code response =? 200)
         then raise backend_failed
         else
           response_content <- lift (normalize response) ;;
           if stream request then
             ret (StreamingResponse
                    (simulate_streaming_response response_content
                                                 (slice_to 8 request_uuid4))
                    "text/event-stream")
           else
             ret (JSONBody (PyDict [
               ("id", PyStr completion_id);
               ("object", PyStr "chat.completion");
               ("created", PyInt now);
               ("model", PyStr model_name);
               ("choices", PyList [PyDict [
                  ("index", PyInt 0);
                  ("message", PyDict [("role", PyStr "assistant");
                                      ("content", response_content)]);
                  ("finish_reason", PyStr "stop")]])]))
     end)%W.

(** The routes: the framework resolves [Depends(verify_bearer_token)]
    before it calls the handler. *)
Definition get_v1_agents (authorization : option string) : io value :=
  (token <- lift (verify_bearer_token authorization) ;;
   discover_agents token)%W.

Definition post_v1_chat (authorization : option string)
    (request : ChatRequest) (x_ibm_thread_id : option string) : io reply :=
  (token <- lift (verify_bearer_token authorization) ;;
   chat_completion request x_ibm_thread_id token)%W.

End Gateway.

(** The status the framework answers with when a handler raises: the
    status of an [HTTPException], 500 for any other exception. *)
Definition response_status (e : exn) : Z :=
  match e with
  | HTTPException c _ _ => c
  | _ => 500
  end.


(** ** Reading a reply: the fields a client looks at *)

(** [v[k]] when [v] is a dict that has [k]. *)
Definition item (v : value) (k : string) : option value :=
  match v with
  | PyDict kv => dict_lookup k kv
  | _ => None
  end.

(** [c["choices"][0][k]] *)
Definition choice0 (c : value) (k : string) : option value :=
  match item c "choices" with
  | Some (PyList (ch :: _)) => item ch k
  | _ => None
  end.

(** The body [send_message] posts for a query. *)
Definition talk_body (query : value) : value :=
  PyDict [("input", PyDict [("text", query)])].

(** ** Messages, as the specification speaks of them *)

Definition has_key (k : string) (msg : list (string * value)) : bool :=
  dict_contains k msg.

(** A message whose role is ["user"]. *)
Definition is_user (msg : list (string * value)) : bool :=
  match dict_lookup "role" msg with
  | Some role => eq_str role "user"
  | None => false
  end.

(** The last message of role ["user"], if there is one. *)
Definition last_user (msgs : list (list (string * value)))
  : option (list (string * value)) :=
  match rev (filter is_user msgs) with
  | [] => None
  | m :: _ => Some m
  end.

(** ** Options, as the specification lists them *)

Definition is_dict (v : value) : bool :=
  match v with PyDict _ => true | _ => false end.

(** The text shown for option number [i]. *)
Definition option_label (i : Z) (option : value) : string :=
  match item option "text" with
  | Some t => py_str t
  | None => "Option " ++ str_int i
  end.

Definition option_line (i : Z) (option : value) : string :=
  nl ++ str_int i ++ ". " ++ option_label i option.

Fixpoint concat_all (parts : list string) : string :=
  match parts with
  | [] => EmptyString
  | p :: rest => p ++ concat_all rest
  end.

(** One line per option, numbered from [n]. *)
Definition numbered_from (n : nat) (options : list value) : string :=
  concat_all
    (map (fun p => option_line (Z.of_nat (fst p)) (snd p))
         (combine (seq n (List.length options)) options)).

(** One line per option, numbered from 1. *)
Definition numbered_options (options : list value) : string :=
  numbered_from 1 options.

(** The options a reply item asks to have listed: its type is
    ["OPTIONS"] and its ['options'] entry is there and truthy. *)
Definition listed_options (response_item : list (string * value))
  : option value :=
  if eq_str (dict_get response_item "type" PyNone) "OPTIONS" then
    match dict_lookup "options" response_item with
    | Some options => if truthy options then Some options else None
    | None => None
    end
  else None.

Definition is_str_or_list (v : value) : bool :=
  match v with PyStr _ | PyList _ => true | _ => false end.

(** The listing can be built: the base content takes [+=] with a str and
    the options are a list of dicts. *)
Definition renderable (base options : value) : bool :=
  is_str_or_list base
  && match options with
     | PyList l => forallb is_dict l
     | _ => false
     end.

(** A value made of JSON's types only: what [json.loads] can return. *)
Fixpoint is_json (v : value) : bool :=
  match v with
  | PyBytes _ => false
  | PyList l => forallb is_json l
  | PyDict kv => forallb (fun p => is_json (snd p)) kv
  | _ => true
  end.

(** ** Sample replies, backends and requests *)

Definition text_reply : Response :=
  {| status_code := 200;
     json := Ok (PyDict [("response",
                          PyList [PyDict [("text", PyStr "Hello");
                                          ("type", PyStr "TEXT")]])]) |}.

(** Two replies the listing does not fit: an option that is no dict, a
    text that is a list. *)
Definition options_not_dicts_reply : Response :=
  {| status_code := 200;
     json := Ok (PyDict [("response",
                          PyList [PyDict [("text", PyStr "Pick");
                                          ("type", PyStr "OPTIONS");
                                          ("options",
                                           PyList [PyStr "A"])]])]) |}.

Definition text_list_reply : Response :=
  {| status_code := 200;
     json := Ok (PyDict [("response",
                          PyList [PyDict [("text", PyList []);
                                          ("type", PyStr "OPTIONS");
                                          ("options",
                                           PyList [PyDict [("text",
                                                            PyStr "A")]])]])]) |}.

Definition options_reply : Response :=
  {| status_code := 200;
     json := Ok (PyDict [("response",
                          PyList [PyDict [("text", PyStr "Pick");
                                          ("type", PyStr "OPTIONS");
                                          ("options",
                                           PyList [PyDict [("text", PyStr "A")];
                                                   PyDict [("text", PyStr "B")];
                                                   PyDict []])]])]) |}.

(** A reply that is JSON and whose second option is a number. *)
Definition malformed_option_reply : Response :=
  {| status_code := 200;
     json := Ok (PyDict [("response",
                          PyList [PyDict [("text", PyStr "Pick");
                                          ("type", PyStr "OPTIONS");
                                          ("options",
                                           PyList [PyDict [("text", PyStr "A")];
                                                   PyInt 7])]])]) |}.

Definition backend_down (body : value) : result Response :=
  Raise (RequestException "connection refused").

Definition backend_503 (body : value) : result Response :=
  Ok {| status_code := 503;
        json := Raise (JSONDecodeError "Expecting value") |}.

Definition user_msg (content : string) : list (string * value) :=
  [("role", PyStr "user"); ("content", PyStr content)].

Definition backend_hello (body : value) : result Response := Ok text_reply.

(** The ending the specification describes for a failed run: an error
    chunk, then the finish chunk, then the sentinel. *)
Definition ends_with_error_finish_done (uuid4 : string) (now : Z)
    (frames : list string) : Prop :=
  exists pre error_frame j2,
    json_dumps (chunk uuid4 now (PyDict []) (PyStr "stop")) = Ok j2
    /\ frames = (pre ++ [error_frame; data_frame j2; DONE])%list.

(** ** More of the gateway, named for the properties below *)

(** The dict [chat_completion] returns when [stream] is false. *)
Definition completion_body (uuid4 : string) (now : Z) (content : value)
  : value :=
  PyDict [
    ("id", PyStr (completion_id uuid4));
    ("object", PyStr "chat.completion");
    ("created", PyInt now);
    ("model", PyStr model_name);
    ("choices", PyList [PyDict [
       ("index", PyInt 0);
       ("message", PyDict [("role", PyStr "assistant");
                           ("content", content)]);
       ("finish_reason", PyStr "stop")]])].

(** What [chat_completion] returns once the content is there. *)
Definition chat_reply (uuid4 : string) (now : Z) (request_uuid4 : string)
    (request : ChatRequest) (content : value) : reply :=
  if stream request then
    StreamingResponse
      (simulate_streaming_response uuid4 now content
                                   (slice_to 8 request_uuid4))
      "text/event-stream"
  else JSONBody (completion_body uuid4 now content).

(** [len(c["choices"])] *)
Definition choices_count (c : value) : option nat :=
  match item c "choices" with
  | Some (PyList l) => Some (List.length l)
  | _ => None
  end.

(** [c["choices"][0]["message"][k]] *)
Definition message0 (c : value) (k : string) : option value :=
  match choice0 c "message" with
  | Some m => item m k
  | None => None
  end.

(** [c["agents"]] as a list *)
Definition agents_of (c : value) : list value :=
  match item c "agents" with
  | Some (PyList l) => l
  | _ => []
  end.

Definition backend_204 (body : value) : result Response :=
  Ok {| status_code := 204;
        json := Raise (JSONDecodeError "Expecting value") |}.

Definition backend_not_json (body : value) : result Response :=
  Ok {| status_code := 200;
        json := Raise (JSONDecodeError "Expecting value") |}.

Definition backend_options (body : value) : result Response :=
  Ok options_reply.

(** Only characters from space to tilde. *)
Fixpoint all_printable (s : string) : bool :=
  match s with
  | EmptyString => true
  | String a s' => printable_ascii (N_of_ascii a) && all_printable s'
  end.

(** Every float in the value has a [repr] of printable characters, as
    the reprs of floats are (digits, sign, point, exponent, [inf], [nan]). *)
Fixpoint floats_printable (v : value) : bool :=
  match v with
  | PyFloat r => all_printable r
  | PyList l => forallb floats_printable l
  | PyDict kv => forallb (fun p => floats_printable (snd p)) kv
  | _ => true
  end.

Definition two_items_reply : Response :=
  {| status_code := 200;
     json := Ok (PyDict [("response",
                          PyList [PyDict [("text", PyStr "Hello");
                                          ("type", PyStr "TEXT")];
                                  PyDict [("text", PyStr "More");
                                          ("type", PyStr "TEXT")]]);
                         ("session", PyStr "abc")]) |}.

Definition empty_options_reply : Response :=
  {| status_code := 200;
     json := Ok (PyDict [("response",
                          PyList [PyDict [("text", PyStr "Pick");
                                          ("type", PyStr "OPTIONS");
                                          ("options", PyList [])]])]) |}.

(** ** The streaming client of test_integration.py *)

(** [body.splitlines()] on bytes: lines end at a line feed, a carriage
    return, or the two together; [cur] is the line read so far. *)
Fixpoint splitlines_from (cur : string) (s : string) : list string :=
  match s with
  | EmptyString =>
      match cur with EmptyString => [] | _ => [cur] end
  | String a s' =>
      if (N_of_ascii a =? 10)%N then cur :: splitlines_from EmptyString s'
      else if (N_of_ascii a =? 13)%N then
        match s' with
        | String b s'' =>
            if (N_of_ascii b =? 10)%N
            then cur :: splitlines_from EmptyString s''
            else cur :: splitlines_from EmptyString s'
        | EmptyString => [cur]
        end
      else splitlines_from (cur ++ chr a) s'
  end.

(** [response.iter_lines()] for a body that has arrived whole. *)
Definition iter_lines (body : string) : list string :=
  splitlines_from EmptyString body.

(** The bytes of an event stream: its frames, one after the other. *)
Definition stream_body (frames : list string) : string := concat_all frames.

(** How the loop of [test_chat_streaming] ends: at the sentinel, at the
    end of the lines, or on a line that reports an error. *)
Inductive loop_end : Type :=
| SawDone (chunk_count : nat)
| Exhausted (chunk_count : nat)
| ErrorLine.

(** The prefix the client takes for an error report. *)
Definition error_prefix : string :=
  "{" ++ chr dquote ++ "error" ++ chr dquote.

(** What the test client sees of its HTTP response. *)
Record HttpReply : Type := {
  reply_status : Z;
  reply_body : string
}.

Section StreamingClient.

(** [bytes.decode('utf-8')] *)
Variable decode : string -> result string.

(** The [for line in response.iter_lines()] loop. *)
Fixpoint stream_loop (lines : list string) (chunk_count : nat)
  : result loop_end :=
  match lines with
  | [] => Ok (Exhausted chunk_count)
  | line :: rest =>
      if truthy (PyBytes line) then
        (line_text <- decode line ;;
         if startswith line_text "data: " then
           let data_str := slice_from 6 line_text in
           if String.eqb data_str "[DONE]" then Ok (SawDone chunk_count)
           else if startswith data_str error_prefix then Ok ErrorLine
           else stream_loop rest (chunk_count + 1)
         else stream_loop rest chunk_count)%result
      else stream_loop rest chunk_count
  end.

(** [test_chat_streaming], given what its [requests.post] did. *)
Definition test_chat_streaming (posted : result HttpReply) : bool :=
  match posted with
  | Raise _ => false
  | Ok response =>
      if reply_status response =? 200 then
        match stream_loop (iter_lines (reply_body response)) 0 with
        | Ok ErrorLine => false
        | Ok _ => true
        | Raise _ => false
        end
      else false
  end.

End StreamingClient.

(** * Properties *)

(** ** Strings *)

Lemma startswith_app (p r : string) : startswith (p ++ r) p = true.
Proof.
  induction p as [|a p IH]; simpl.
  - reflexivity.
  - rewrite Ascii.eqb_refl. exact IH.
Qed.

Lemma slice_from_app (p r : string) : slice_from (String.length p) (p ++ r) = r.
Proof. induction p as [|a p IH]; simpl; auto. Qed.

Lemma startswith_split (p s : string) :
  startswith s p = true -> s = p ++ slice_from (String.length p) s.
Proof.
  revert s.
  induction p as [|a p IH]; intros s H; simpl in *.
  - reflexivity.
  - destruct s as [|b s]; [discriminate|].
    apply andb_prop in H as [Hab Hs].
    apply Ascii.eqb_eq in Hab as ->.
    f_equal. apply IH, Hs.
Qed.

(** ** Bearer authentication *)

Lemma verify_bearer_token_accepts (secret : string) :
  verify_bearer_token secret (Some ("Bearer " ++ secret)) = Ok secret.
Proof.
  unfold verify_bearer_token.
  change (truthy (PyStr ("Bearer " ++ secret))) with true.
  rewrite startswith_app.
  change 7%nat with (String.length "Bearer ").
  rewrite slice_from_app, String.eqb_refl. reflexivity.
Qed.

Lemma verify_bearer_token_ok_inv (secret : string) (a : option string)
    (token : string) :
  verify_bearer_token secret a = Ok token ->
  a = Some ("Bearer " ++ secret) /\ token = secret.
Proof.
  unfold verify_bearer_token. destruct a as [s|]; [|discriminate].
  destruct (negb (truthy (PyStr s))); [discriminate|].
  destruct (startswith s "Bearer ") eqn:Hp; [|discriminate]. cbv beta iota delta [negb].
  destruct (String.eqb (slice_from 7 s) secret) eqn:He; [|discriminate].
  intros [= <-]. apply String.eqb_eq in He.
  apply startswith_split in Hp. change (String.length "Bearer ") with 7%nat in Hp.
  split; [|exact He]. rewrite <- He. f_equal. exact Hp.
Qed.

Lemma verify_bearer_token_rejects (secret : string) (a : option string)
    (e : exn) :
  verify_bearer_token secret a = Raise e ->
  exists detail, e = unauthorized detail.
Proof.
  unfold verify_bearer_token. destruct a as [s|].
  - destruct (negb (truthy (PyStr s))); [intros [= <-]; eauto|].
    destruct (negb (startswith s "Bearer ")); [intros [= <-]; eauto|].
    destruct (negb _); [intros [= <-]; eauto | discriminate].
  - intros [= <-]; eauto.
Qed.

(** C6.  Authentication succeeds exactly on the header
    ["Bearer " ++ secret] and then returns the secret; every other header
    is refused with status 401 and the challenge [WWW-Authenticate: Bearer],
    the detail telling an absent (or empty) header, a header without the
    prefix and a wrong token apart by three different messages; on a
    refusal neither route posts anything to the backend. *)
Theorem C6_bearer_authentication
    (secret : string) (post : value -> result Response)
    (uuid4 : string) (now : Z) (rid : string)
    (authorization : option string) :
  (forall token,
      verify_bearer_token secret authorization = Ok token <->
      authorization = Some ("Bearer " ++ secret) /\ token = secret)
  /\ (authorization = None \/ authorization = Some EmptyString ->
      verify_bearer_token secret authorization
      = Raise (HTTPException 401 "Authorization header required"
                             [("WWW-Authenticate", "Bearer")]))
  /\ (forall s, authorization = Some s -> s <> EmptyString ->
      startswith s "Bearer " = false ->
      verify_bearer_token secret authorization
      = Raise (HTTPException 401
                 "Authorization header must start with 'Bearer '"
                 [("WWW-Authenticate", "Bearer")]))
  /\ (forall t, authorization = Some ("Bearer " ++ t) -> t <> secret ->
      verify_bearer_token secret authorization
      = Raise (HTTPException 401 "Invalid bearer token"
                             [("WWW-Authenticate", "Bearer")]))
  /\ (forall e, verify_bearer_token secret authorization = Raise e ->
      response_status e = 401
      /\ (forall request thread,
            post_v1_chat secret post uuid4 now rid authorization
                         request thread = ([], Raise e))
      /\ get_v1_agents secret authorization = ([], Raise e))
  /\ "Authorization header required"
       <> "Authorization header must start with 'Bearer '"
  /\ "Authorization header required" <> "Invalid bearer token"
  /\ "Authorization header must start with 'Bearer '"
       <> "Invalid bearer token".
Proof.
  split; [|split; [|split; [|split; [|split]]]].
  - intros token. split.
    + apply verify_bearer_token_ok_inv.
    + intros [-> ->]. apply verify_bearer_token_accepts.
  - intros [-> | ->]; reflexivity.
  - intros s -> Hne Hp. unfold verify_bearer_token.
    destruct s as [|c s]; [contradiction|].
    change (truthy (PyStr (String c s))) with true.
    cbv beta iota delta [negb]. rewrite Hp. reflexivity.
  - intros t -> Hne. unfold verify_bearer_token.
    change (truthy (PyStr ("Bearer " ++ t))) with true.
    rewrite startswith_app.
    change 7%nat with (String.length "Bearer ").
    rewrite slice_from_app.
    destruct (String.eqb t secret) eqn:He; [|reflexivity].
    apply String.eqb_eq in He. contradiction.
  - intros e H. split; [|split].
    + apply verify_bearer_token_rejects in H as [d ->]. reflexivity.
    + intros request thread. unfold post_v1_chat, lift, bind.
      rewrite H. reflexivity.
    + unfold get_v1_agents, lift, bind. rewrite H. reflexivity.
  - repeat split; discriminate.
Qed.

(** ** The emulated stream *)

(** A chunk serialises as soon as its delta and finish reason do. *)
Lemma json_dumps_chunk (uuid4 : string) (now : Z) (delta fr : value)
    (dj fj : string) :
  json_dumps delta = Ok dj -> json_dumps fr = Ok fj ->
  exists j, json_dumps (chunk uuid4 now delta fr) = Ok j.
Proof.
  intros Hd Hf. unfold chunk.
  cbn [json_dumps map sequence ResultMonad.bind fst snd].
  rewrite Hd, Hf. cbn [ResultMonad.bind]. eexists. reflexivity.
Qed.

Lemma json_dumps_chunk_raise (uuid4 : string) (now : Z) (delta fr : value)
    (e : exn) :
  json_dumps delta = Raise e ->
  json_dumps (chunk uuid4 now delta fr) = Raise e.
Proof.
  intros Hd. unfold chunk.
  cbn [json_dumps map sequence ResultMonad.bind fst snd].
  rewrite Hd. reflexivity.
Qed.

Lemma json_dumps_content (v : value) :
  json_dumps (PyDict [("content", v)])
  = match json_dumps v with
    | Ok j => Ok ("{" ++ json_string "content" ++ ": " ++ j ++ "}")
    | Raise e => Raise e
    end.
Proof.
  cbn [json_dumps map sequence ResultMonad.bind fst snd].
  destruct (json_dumps v); reflexivity.
Qed.

(** [json.dumps] accepts every value made of JSON's types. *)
Lemma json_dumps_total : forall v, is_json v = true ->
  exists s, json_dumps v = Ok s.
Proof.
  fix IH 1. intros v. destruct v as [|b|z|r|s|b|l|kv]; intros H;
    try discriminate; try (eexists; reflexivity).
  - destruct b; eexists; reflexivity.
  - cbn [json_dumps].
    assert (Hl : exists parts, sequence (map json_dumps l) = Ok parts).
    { cbn [is_json] in H. induction l as [|x l IHl].
      - eexists; reflexivity.
      - cbn [forallb] in H. apply andb_prop in H as [Hx Hl].
        destruct (IH x Hx) as [sx Hsx]. destruct (IHl Hl) as [ps Hps].
        cbn [map sequence]. rewrite Hsx, Hps. eexists; reflexivity. }
    destruct Hl as [parts ->]. eexists; reflexivity.
  - cbn [json_dumps].
    assert (Hl : exists parts,
               sequence
                 (map (fun p =>
                         (s <- json_dumps (snd p) ;;
                          Ok (json_string (fst p) ++ ": " ++ s))%result)
                      kv) = Ok parts).
    { cbn [is_json] in H. induction kv as [|[k x] kv IHl].
      - eexists; reflexivity.
      - cbn [forallb snd] in H. apply andb_prop in H as [Hx Hl].
        destruct (IH x Hx) as [sx Hsx]. destruct (IHl Hl) as [ps Hps].
        cbn [map sequence fst snd]. rewrite Hsx, Hps. eexists; reflexivity. }
    destruct Hl as [parts ->]. eexists; reflexivity.
Qed.

(** The run of the generator when the first frame can be built. *)
Lemma simulate_streaming_response_ok (uuid4 : string) (now : Z)
    (response_content : value) (rid j1 j2 : string) :
  json_dumps (chunk uuid4 now (PyDict [("content", response_content)]) PyNone)
  = Ok j1 ->
  json_dumps (chunk uuid4 now (PyDict []) (PyStr "stop")) = Ok j2 ->
  simulate_streaming_response uuid4 now response_content rid
  = ([data_frame j1; data_frame j2; DONE], Ok tt).
Proof.
  intros H1 H2. unfold simulate_streaming_response.
  rewrite H1, H2. reflexivity.
Qed.

(** The run of the generator when building the first frame raises. *)
Lemma simulate_streaming_response_raise (uuid4 : string) (now : Z)
    (response_content : value) (rid je : string) (e : exn) :
  json_dumps (chunk uuid4 now (PyDict [("content", response_content)]) PyNone)
  = Raise e ->
  json_dumps (chunk uuid4 now
                (PyDict [("content", PyStr ("Error: " ++ str_exn e))])
                (PyStr "stop")) = Ok je ->
  simulate_streaming_response uuid4 now response_content rid
  = ([data_frame je; DONE], Ok tt).
Proof.
  intros H1 H2. unfold simulate_streaming_response.
  rewrite H1. unfold lift, bind, try_except. rewrite H2. reflexivity.
Qed.

(** C1.  For a content string the generator yields exactly three frames:
    the serialised content chunk (object [chat.completion.chunk], the whole
    content as [delta.content], [finish_reason] null), the serialised
    finish chunk (empty delta, [finish_reason] ["stop"]) and the sentinel;
    the two chunks carry the same [id] and the same [created]. *)
Theorem C1_stream_two_frames_then_done
    (uuid4 : string) (now : Z) (content rid : string) :
  let c1 := chunk uuid4 now (PyDict [("content", PyStr content)]) PyNone in
  let c2 := chunk uuid4 now (PyDict []) (PyStr "stop") in
  exists j1 j2,
    json_dumps c1 = Ok j1 /\ json_dumps c2 = Ok j2
    /\ simulate_streaming_response uuid4 now (PyStr content) rid
       = ([data_frame j1; data_frame j2; "data: [DONE]" ++ nl ++ nl], Ok tt)
    /\ item c1 "object" = Some (PyStr "chat.completion.chunk")
    /\ choice0 c1 "delta" = Some (PyDict [("content", PyStr content)])
    /\ choice0 c1 "finish_reason" = Some PyNone
    /\ item c2 "object" = Some (PyStr "chat.completion.chunk")
    /\ choice0 c2 "delta" = Some (PyDict [])
    /\ choice0 c2 "finish_reason" = Some (PyStr "stop")
    /\ item c1 "id" = Some (PyStr ("chatcmpl-" ++ slice_to 8 uuid4))
    /\ item c2 "id" = item c1 "id"
    /\ item c1 "created" = Some (PyInt now)
    /\ item c2 "created" = item c1 "created".
Proof.
  intros c1 c2.
  destruct (json_dumps_chunk uuid4 now (PyDict [("content", PyStr content)])
              PyNone _ _ (json_dumps_content (PyStr content)) eq_refl)
    as [j1 H1].
  destruct (json_dumps_chunk uuid4 now (PyDict []) (PyStr "stop")
              _ _ eq_refl eq_refl) as [j2 H2].
  exists j1, j2. split; [exact H1|]. split; [exact H2|].
  split; [apply simulate_streaming_response_ok; assumption|].
  repeat split.
Qed.

(** Whatever the content, the run ends with the sentinel and the
    generator itself never raises. *)
Lemma simulate_streaming_response_ends_with_DONE (uuid4 : string) (now : Z)
    (response_content : value) (rid : string) :
  exists pre,
    simulate_streaming_response uuid4 now response_content rid
    = ((pre ++ [DONE])%list, Ok tt).
Proof.
  destruct (json_dumps_chunk uuid4 now (PyDict []) (PyStr "stop")
              _ _ eq_refl eq_refl) as [j2 H2].
  destruct (json_dumps
              (chunk uuid4 now (PyDict [("content", response_content)]) PyNone))
    as [j1|e] eqn:H1.
  - exists [data_frame j1; data_frame j2].
    apply simulate_streaming_response_ok; assumption.
  - destruct (json_dumps_chunk uuid4 now
                (PyDict [("content", PyStr ("Error: " ++ str_exn e))])
                (PyStr "stop") _ _ (json_dumps_content _) eq_refl)
      as [je He].
    exists [data_frame je].
    apply (simulate_streaming_response_raise _ _ _ _ _ e); assumption.
Qed.

(** C5, as stated, fails: with a [bytes] content building the first frame
    raises, and the run is the error chunk and the sentinel, two frames,
    with no finish chunk between them. *)
Lemma C5_no_finish_chunk_after_error :
  json_dumps (chunk "0123456789abcdef" 1700000000
                (PyDict [("content", PyBytes "x")]) PyNone)
  = Raise (TypeError "Object of type bytes is not JSON serializable")
  /\ List.length
       (emitted (simulate_streaming_response "0123456789abcdef" 1700000000
                   (PyBytes "x") "01234567")) = 2%nat
  /\ ~ ends_with_error_finish_done "0123456789abcdef" 1700000000
         (emitted (simulate_streaming_response "0123456789abcdef" 1700000000
                     (PyBytes "x") "01234567")).
Proof.
  split; [reflexivity|]. split; [reflexivity|].
  intros (pre & fe & j2 & _ & H).
  apply (f_equal (@List.length string)) in H.
  rewrite length_app in H.
  change (List.length (emitted _)) with 2%nat in H.
  simpl in H. lia.
Qed.

(** C5, amended.  When building the first frame raises [e], the run is
    exactly one chunk with [delta.content] the text ["Error: "] followed by
    [str(e)] and with [finish_reason] ["stop"], then the sentinel; the
    generator itself returns normally. *)
Theorem C5_stream_error_chunk_then_done
    (uuid4 : string) (now : Z) (response_content : value) (rid : string)
    (e : exn)
    (H : json_dumps
           (chunk uuid4 now (PyDict [("content", response_content)]) PyNone)
         = Raise e) :
  let ce := chunk uuid4 now
              (PyDict [("content", PyStr ("Error: " ++ str_exn e))])
              (PyStr "stop") in
  exists je,
    json_dumps ce = Ok je
    /\ simulate_streaming_response uuid4 now response_content rid
       = ([data_frame je; "data: [DONE]" ++ nl ++ nl], Ok tt)
    /\ item ce "object" = Some (PyStr "chat.completion.chunk")
    /\ choice0 ce "delta"
       = Some (PyDict [("content", PyStr ("Error: " ++ str_exn e))])
    /\ choice0 ce "finish_reason" = Some (PyStr "stop").
Proof.
  intros ce.
  destruct (json_dumps_chunk uuid4 now
              (PyDict [("content", PyStr ("Error: " ++ str_exn e))])
              (PyStr "stop") _ _ (json_dumps_content _) eq_refl)
    as [je He].
  exists je. split; [exact He|].
  split; [apply (simulate_streaming_response_raise _ _ _ _ _ e); assumption|].
  repeat split.
Qed.

Lemma C5_stream_error_chunk_then_done_witness :
  exists je,
    json_dumps (chunk "0123456789abcdef" 1700000000
                  (PyDict [("content",
                            PyStr "Error: Object of type bytes is not JSON serializable")])
                  (PyStr "stop")) = Ok je
    /\ simulate_streaming_response "0123456789abcdef" 1700000000
         (PyBytes "x") "01234567"
       = ([data_frame je; DONE], Ok tt).
Proof.
  destruct (C5_stream_error_chunk_then_done "0123456789abcdef" 1700000000
              (PyBytes "x") "01234567"
              (TypeError "Object of type bytes is not JSON serializable")
              eq_refl) as (je & H1 & H2 & _).
  exists je. split; [exact H1 | exact H2].
Defined.

(** ** Normalisation of the backend reply *)

Lemma append_assoc (a b c : string) : (a ++ b) ++ c = a ++ (b ++ c).
Proof. induction a as [|x a IH]; simpl; [reflexivity | now rewrite IH]. Qed.

(** The outcome of normalisation is content or the one 500 error. *)
Lemma normalize_cases (response : Response) :
  (exists c, normalize response = Ok c)
  \/ normalize response = Raise invalid_response.
Proof.
  unfold normalize. destruct (parse_response response); eauto.
Qed.

Lemma normalize_not_json (response : Response) (e : exn) :
  json response = Raise e -> normalize response = Raise invalid_response.
Proof.
  intros H. unfold normalize, parse_response. rewrite H. reflexivity.
Qed.

Lemma parse_response_fallback (response : Response) (data : value) :
  json response = Ok data -> first_response_item data = None ->
  parse_response response = Ok (PyStr (py_str data)).
Proof.
  intros Hj Hf. unfold parse_response. rewrite Hj. simpl. now rewrite Hf.
Qed.

(** An item that asks for no listing: the content is its text. *)
Lemma parse_response_plain (response : Response) (data : value)
    (response_item : list (string * value)) :
  json response = Ok data ->
  first_response_item data = Some response_item ->
  listed_options response_item = None ->
  parse_response response
  = Ok (dict_get response_item "text" (PyStr "No response text")).
Proof.
  intros Hj Hf Hl. unfold parse_response. rewrite Hj. simpl. rewrite Hf.
  unfold listed_options in Hl.
  destruct (eq_str (dict_get response_item "type" PyNone) "OPTIONS");
    [|reflexivity].
  unfold dict_contains, dict_getitem.
  destruct (dict_lookup "options" response_item) as [o|]; [|reflexivity].
  simpl. destruct (truthy o); [discriminate | reflexivity].
Qed.

(** An item that asks for a listing: the steps that build it. *)
Lemma parse_response_listing (response : Response) (data : value)
    (response_item : list (string * value)) (options : value) :
  json response = Ok data ->
  first_response_item data = Some response_item ->
  listed_options response_item = Some options ->
  parse_response response
  = (response_content <-
       py_iadd_str (dict_get response_item "text" (PyStr "No response text"))
                   (nl ++ nl ++ "Options:") ;;
     items <- py_iter options ;;
     append_options 1 items response_content)%result.
Proof.
  intros Hj Hf Hl. unfold parse_response. rewrite Hj. simpl. rewrite Hf.
  unfold listed_options in Hl.
  destruct (eq_str (dict_get response_item "type" PyNone) "OPTIONS");
    [|discriminate].
  unfold dict_contains, dict_getitem.
  destruct (dict_lookup "options" response_item) as [o|]; [|discriminate].
  simpl. destruct (truthy o); [|discriminate].
  injection Hl as ->. reflexivity.
Qed.

Lemma py_iadd_str_ok (v : value) (s : string) :
  is_str_or_list v = true ->
  exists c, py_iadd_str v s = Ok c /\ is_str_or_list c = true.
Proof. destruct v; try discriminate; intros _; eexists; split; reflexivity. Qed.

Lemma py_iadd_str_raise (v : value) (s : string) :
  is_str_or_list v = false -> exists e, py_iadd_str v s = Raise e.
Proof. destruct v; try discriminate; intros _; eexists; reflexivity. Qed.

Lemma py_get_raise (v : value) (k : string) (d : value) :
  is_dict v = false -> exists e, py_get v k d = Raise e.
Proof. destruct v; try discriminate; intros _; eexists; reflexivity. Qed.

(** On a str the loop concatenates the numbered lines. *)
Lemma append_options_str (options : list value) :
  forall (n : nat) (acc : string),
    forallb is_dict options = true ->
    append_options (Z.of_nat n) options (PyStr acc)
    = Ok (PyStr (acc ++ numbered_from n options)).
Proof.
  induction options as [|o rest IH]; intros n acc Hd.
  - unfold numbered_from. simpl.
    replace (acc ++ EmptyString) with acc; [reflexivity|].
    clear. induction acc as [|a acc IH]; simpl; congruence.
  - simpl in Hd. apply andb_prop in Hd as [Ho Hrest].
    destruct o as [| | | | | |l|kv]; try discriminate.
    cbn [append_options py_get ResultMonad.bind py_iadd_str].
    replace (Z.of_nat n + 1) with (Z.of_nat (S n)) by lia.
    rewrite (IH (S n) _ Hrest). unfold numbered_from.
    cbn [List.length seq combine map concat_all fst snd].
    rewrite !append_assoc. unfold option_line, option_label, item, dict_get.
    destruct (dict_lookup "text" kv); cbn [py_str]; rewrite ?append_assoc;
      reflexivity.
Qed.

(** The loop keeps a str or list a str or list, as long as every option
    is a dict. *)
Lemma append_options_ok (options : list value) :
  forall (i : Z) (rc : value),
    is_str_or_list rc = true -> forallb is_dict options = true ->
    exists c, append_options i options rc = Ok c.
Proof.
  induction options as [|o rest IH]; intros i rc Hrc Hd.
  - eexists; reflexivity.
  - simpl in Hd. apply andb_prop in Hd as [Ho Hrest].
    destruct o as [| | | | | |l|kv]; try discriminate.
    cbn [append_options py_get ResultMonad.bind].
    destruct (py_iadd_str_ok rc
                (nl ++ str_int i ++ ". "
                 ++ py_str (dict_get kv "text" (PyStr ("Option " ++ str_int i))))
                Hrc) as (c & -> & Hc).
    cbn [ResultMonad.bind]. apply IH; assumption.
Qed.

(** One option that is not a dict makes the loop raise. *)
Lemma append_options_raise (options : list value) :
  forall (i : Z) (rc : value),
    forallb is_dict options = false ->
    exists e, append_options i options rc = Raise e.
Proof.
  induction options as [|o rest IH]; intros i rc Hd; [discriminate|].
  simpl in Hd. destruct (is_dict o) eqn:Ho.
  - simpl in Hd. destruct o as [| | | | | |l|kv]; try discriminate.
    cbn [append_options py_get ResultMonad.bind].
    destruct (py_iadd_str rc _) as [c|e]; cbn [ResultMonad.bind].
    + apply IH, Hd.
    + eauto.
  - destruct (py_get_raise o "text" (PyStr ("Option " ++ str_int i)) Ho)
      as [e He].
    exists e. cbn [append_options]. rewrite He. reflexivity.
Qed.

(** Truthy options that are not a list of dicts cannot be listed. *)
Lemma listing_raises (base options : value) :
  truthy options = true -> renderable base options = false ->
  exists e,
    (response_content <- py_iadd_str base (nl ++ nl ++ "Options:") ;;
     items <- py_iter options ;;
     append_options 1 items response_content)%result = Raise e.
Proof.
  intros Ht Hr. unfold renderable in Hr.
  destruct (is_str_or_list base) eqn:Hb.
  - destruct (py_iadd_str_ok base (nl ++ nl ++ "Options:") Hb) as (c & -> & _).
    cbn [ResultMonad.bind]. simpl in Hr.
    destruct options as [|b|z|r|s|s|l|kv]; cbn [py_iter ResultMonad.bind];
      eauto.
    + destruct s as [|a s]; [discriminate|].
      apply append_options_raise. reflexivity.
    + destruct s as [|a s]; [discriminate|].
      apply append_options_raise. reflexivity.
    + apply append_options_raise, Hr.
    + destruct kv as [|[k v] kv]; [discriminate|].
      apply append_options_raise. reflexivity.
  - destruct (py_iadd_str_raise base (nl ++ nl ++ "Options:") Hb) as [e ->].
    eexists; reflexivity.
Qed.

Lemma listing_ok (base options : value) :
  renderable base options = true ->
  exists c,
    (response_content <- py_iadd_str base (nl ++ nl ++ "Options:") ;;
     items <- py_iter options ;;
     append_options 1 items response_content)%result = Ok c.
Proof.
  unfold renderable. intros H. apply andb_prop in H as [Hb Ho].
  destruct options as [| | | | | |l|]; try discriminate.
  destruct (py_iadd_str_ok base (nl ++ nl ++ "Options:") Hb) as (c & -> & Hc).
  cbn [ResultMonad.bind py_iter]. apply append_options_ok; assumption.
Qed.

(** *** Content made from a JSON payload is JSON *)

Lemma is_json_chars (s : string) : forallb is_json (chars s) = true.
Proof.
  unfold chars. induction (list_ascii_of_string s) as [|a l IH];
    [reflexivity | exact IH].
Qed.

Lemma is_json_lookup (k : string) (kv : list (string * value)) (v : value) :
  is_json (PyDict kv) = true -> dict_lookup k kv = Some v -> is_json v = true.
Proof.
  cbn [is_json]. induction kv as [|[k' x] kv IH]; [discriminate|].
  cbn [forallb dict_lookup snd]. intros H. apply andb_prop in H as [Hx Hkv].
  destruct (String.eqb k' k); [intros [= <-]; exact Hx | apply IH, Hkv].
Qed.

Lemma is_json_iadd_str (v c : value) (s : string) :
  is_json v = true -> py_iadd_str v s = Ok c -> is_json c = true.
Proof.
  destruct v; try discriminate; cbn [py_iadd_str]; intros H [= <-].
  - reflexivity.
  - cbn [is_json] in *. now rewrite forallb_app, H, is_json_chars.
Qed.

Lemma is_json_append_options (options : list value) :
  forall (i : Z) (rc c : value),
    is_json rc = true -> append_options i options rc = Ok c ->
    is_json c = true.
Proof.
  induction options as [|o rest IH]; intros i rc c Hrc; cbn [append_options].
  - now intros [= <-].
  - destruct (py_get o "text" _) as [t|e]; [|discriminate].
    cbn [ResultMonad.bind].
    destruct (py_iadd_str rc _) as [rc'|e] eqn:Hadd; [|discriminate].
    cbn [ResultMonad.bind]. apply IH.
    exact (is_json_iadd_str _ _ _ Hrc Hadd).
Qed.

Lemma is_json_first_response_item (data : value)
    (response_item : list (string * value)) :
  is_json data = true -> first_response_item data = Some response_item ->
  is_json (PyDict response_item) = true.
Proof.
  destruct data as [| | | | | | |d]; try discriminate.
  intros H. unfold first_response_item.
  destruct (dict_lookup "response" d) as [v|] eqn:Hl; [|discriminate].
  pose proof (is_json_lookup _ _ _ H Hl) as Hv.
  destruct v as [| | | | | |[|x l]|]; try discriminate.
  destruct x; try discriminate. intros [= <-].
  cbn [is_json forallb] in Hv. apply andb_prop in Hv as [Hx _]. exact Hx.
Qed.

(** What [normalize] returns for a JSON payload is made of JSON's types,
    so [json.dumps] accepts it. *)
Lemma normalize_is_json (response : Response) (data c : value) :
  json response = Ok data -> is_json data = true ->
  normalize response = Ok c -> is_json c = true.
Proof.
  intros Hj Hd. unfold normalize.
  destruct (parse_response response) as [c'|e] eqn:Hp; [|discriminate].
  intros [= <-]. revert Hp.
  destruct (first_response_item data) as [response_item|] eqn:Hf.
  - pose proof (is_json_first_response_item _ _ Hd Hf) as Hi.
    assert (Hb : is_json (dict_get response_item "text"
                            (PyStr "No response text")) = true).
    { unfold dict_get.
      destruct (dict_lookup "text" response_item) eqn:Ht; [|reflexivity].
      exact (is_json_lookup _ _ _ Hi Ht). }
    destruct (listed_options response_item) as [options|] eqn:Hl.
    + rewrite (parse_response_listing _ _ _ _ Hj Hf Hl).
      destruct (py_iadd_str _ _) as [rc|e] eqn:Hadd; [|discriminate].
      cbn [ResultMonad.bind].
      destruct (py_iter options) as [items|e]; [|discriminate].
      cbn [ResultMonad.bind]. apply is_json_append_options.
      exact (is_json_iadd_str _ _ _ Hb Hadd).
    + rewrite (parse_response_plain _ _ _ Hj Hf Hl). now intros [= <-].
  - rewrite (parse_response_fallback _ _ Hj Hf). now intros [= <-].
Qed.

(** For content made of JSON's types the run is the two chunks and the
    sentinel: the error branch needs a content [json.dumps] refuses. *)
Lemma simulate_streaming_response_json (uuid4 : string) (now : Z)
    (response_content : value) (rid : string) :
  is_json response_content = true ->
  exists j1 j2,
    simulate_streaming_response uuid4 now response_content rid
    = ([data_frame j1; data_frame j2; DONE], Ok tt).
Proof.
  intros H. destruct (json_dumps_total _ H) as [jc Hc].
  destruct (json_dumps_chunk uuid4 now (PyDict [("content", response_content)])
              PyNone _ "null"
              (eq_trans (json_dumps_content response_content)
                        (f_equal (fun r => match r with
                                           | Ok j => Ok _
                                           | Raise e => Raise e
                                           end) Hc))
              eq_refl) as [j1 H1].
  destruct (json_dumps_chunk uuid4 now (PyDict []) (PyStr "stop")
              _ _ eq_refl eq_refl) as [j2 H2].
  exists j1, j2. apply simulate_streaming_response_ok; assumption.
Qed.

Lemma first_response_item_shape (d : list (string * value))
    (response_item : list (string * value)) (rest : list value) :
  dict_lookup "response" d = Some (PyList (PyDict response_item :: rest)) ->
  first_response_item (PyDict d) = Some response_item.
Proof. intros H. unfold first_response_item. now rewrite H. Qed.

(** C2.  A reply whose first item is a dict of type ["TEXT"] normalises to
    that item's text as it is (to ["No response text"] when the item has no
    text), with nothing appended. *)
Theorem C2_text_reply_verbatim
    (response : Response) (d response_item : list (string * value))
    (rest : list value)
    (Hjson : json response = Ok (PyDict d))
    (Hresp : dict_lookup "response" d
             = Some (PyList (PyDict response_item :: rest)))
    (Htype : dict_lookup "type" response_item = Some (PyStr "TEXT")) :
  normalize response
  = Ok (dict_get response_item "text" (PyStr "No response text"))
  /\ (forall t, dict_lookup "text" response_item = Some t ->
      normalize response = Ok t).
Proof.
  assert (H : normalize response
              = Ok (dict_get response_item "text" (PyStr "No response text"))).
  { unfold normalize.
    rewrite (parse_response_plain response (PyDict d) response_item Hjson
               (first_response_item_shape _ _ _ Hresp)); [reflexivity|].
    unfold listed_options, dict_get. rewrite Htype. reflexivity. }
  split; [exact H|].
  intros t Ht. rewrite H. unfold dict_get. now rewrite Ht.
Qed.

Lemma C2_text_reply_verbatim_witness :
  normalize text_reply = Ok (PyStr "Hello").
Proof.
  exact (proj1 (C2_text_reply_verbatim text_reply _ _ [] eq_refl eq_refl
                  eq_refl)).
Defined.

(** C3, as stated, fails: an item of type ["OPTIONS"] with the non-empty
    options list [["A"]] has no normalised content at all, the option being
    no dict; and with an empty list as text the content is a list of
    one-character strings, not the text followed by the listing. *)
Lemma C3_options_listing_fails :
  normalize options_not_dicts_reply = Raise invalid_response
  /\ normalize text_list_reply
     = Ok (PyList (chars (nl ++ nl ++ "Options:" ++ nl ++ "1. A"))).
Proof. split; reflexivity. Qed.

(** C3, amended.  When the first item has type ["OPTIONS"], its options are
    a non-empty list of dicts and its text is a str (or absent, which gives
    ["No response text"]), the content is the text, then two newlines and
    ["Options:"], then one line per option, numbered from 1: a newline, the
    index, [". "] and the option's text, or ["Option "] and the index for an
    option without text. *)
Theorem C3_options_listing
    (response : Response) (d response_item : list (string * value))
    (rest options : list value) (base : string)
    (Hjson : json response = Ok (PyDict d))
    (Hresp : dict_lookup "response" d
             = Some (PyList (PyDict response_item :: rest)))
    (Htype : dict_lookup "type" response_item = Some (PyStr "OPTIONS"))
    (Hopts : dict_lookup "options" response_item = Some (PyList options))
    (Hne : options <> [])
    (Hdicts : forallb is_dict options = true)
    (Hbase : dict_get response_item "text" (PyStr "No response text")
             = PyStr base) :
  normalize response
  = Ok (PyStr (base ++ nl ++ nl ++ "Options:" ++ numbered_options options))
  /\ numbered_options options
     = concat_all
         (map (fun p => option_line (Z.of_nat (fst p)) (snd p))
              (combine (seq 1 (List.length options)) options))
  /\ (forall i kv t, dict_lookup "text" kv = Some (PyStr t) ->
      option_line i (PyDict kv) = nl ++ str_int i ++ ". " ++ t)
  /\ (forall i kv, dict_lookup "text" kv = None ->
      option_line i (PyDict kv)
      = nl ++ str_int i ++ ". " ++ "Option " ++ str_int i).
Proof.
  split; [|split; [reflexivity|split]].
  - unfold normalize.
    rewrite (parse_response_listing response (PyDict d) response_item
               (PyList options) Hjson
               (first_response_item_shape _ _ _ Hresp)).
    + rewrite Hbase. cbn [py_iadd_str ResultMonad.bind py_iter].
      rewrite (append_options_str options 1 _ Hdicts).
      unfold numbered_options. rewrite !append_assoc. reflexivity.
    + unfold listed_options, dict_get. rewrite Htype, Hopts.
      destruct options; [contradiction | reflexivity].
  - intros i kv t H. unfold option_line, option_label, item.
    rewrite H. reflexivity.
  - intros i kv H. unfold option_line, option_label, item.
    rewrite H. reflexivity.
Qed.

Lemma C3_options_listing_witness :
  normalize options_reply
  = Ok (PyStr ("Pick" ++ nl ++ nl ++ "Options:" ++ nl ++ "1. A"
               ++ nl ++ "2. B" ++ nl ++ "3. Option 3")).
Proof.
  refine (eq_trans
            (proj1 (C3_options_listing options_reply _ _ [] _ "Pick"
                      eq_refl eq_refl eq_refl eq_refl _ eq_refl eq_refl))
            eq_refl).
  discriminate.
Defined.

(** C4, as stated, fails: the payload is JSON, and normalisation raises
    the 500 error all the same, because one option is not a dict. *)
Lemma C4_parseable_payload_rejected :
  (exists data, json malformed_option_reply = Ok data)
  /\ normalize malformed_option_reply
     = Raise (HTTPException 500 "Invalid response from Red Hat Console API" []).
Proof. split; [eexists|]; reflexivity. Qed.

(** C4, amended.  Normalisation gives content or raises the one 500
    "invalid response" error, never anything else.  It raises when the
    payload is not JSON.  When the payload is JSON: without the expected
    shape the content is [str] of the whole payload; with it, an item that
    asks for no listing gives its text, and an item that asks for one gives
    content exactly when its text is a str or a list and its options are a
    list of dicts (which may lack their text), and the 500 error
    otherwise. *)
Theorem C4_normalize_outcomes (response : Response) :
  ((exists c, normalize response = Ok c)
   \/ normalize response
      = Raise (HTTPException 500 "Invalid response from Red Hat Console API"
                             []))
  /\ (forall e, json response = Raise e ->
      normalize response = Raise invalid_response)
  /\ (forall data, json response = Ok data ->
      (first_response_item data = None ->
       normalize response = Ok (PyStr (py_str data)))
      /\ (forall response_item,
            first_response_item data = Some response_item ->
            let base :=
              dict_get response_item "text" (PyStr "No response text") in
            (listed_options response_item = None ->
             normalize response = Ok base)
            /\ (forall options,
                  listed_options response_item = Some options ->
                  (renderable base options = true ->
                   exists c, normalize response = Ok c)
                  /\ (renderable base options = false ->
                      normalize response = Raise invalid_response)))).
Proof.
  split; [apply normalize_cases|]. split; [apply normalize_not_json|].
  intros data Hj. split.
  - intros Hf. unfold normalize.
    now rewrite (parse_response_fallback response data Hj Hf).
  - intros response_item Hf base. split.
    + intros Hl. unfold normalize.
      now rewrite (parse_response_plain response data response_item Hj Hf Hl).
    + intros options Hl. unfold normalize.
      rewrite (parse_response_listing response data response_item options
                 Hj Hf Hl).
      fold base. split; intros Hr.
      * destruct (listing_ok base options Hr) as [c ->]. eauto.
      * assert (Ht : truthy options = true).
        { unfold listed_options in Hl.
          destruct (eq_str _ _); [|discriminate].
          destruct (dict_lookup "options" response_item) as [o|];
            [|discriminate].
          destruct (truthy o) eqn:Ht; [|discriminate].
          now injection Hl as <-. }
        destruct (listing_raises base options Ht Hr) as [e ->]. reflexivity.
Qed.

Lemma C4_normalize_outcomes_witness :
  normalize malformed_option_reply = Raise invalid_response
  /\ (exists c, normalize options_reply = Ok c).
Proof.
  split.
  - refine (proj2 (proj2 (proj2 (proj2 (proj2 (C4_normalize_outcomes
              malformed_option_reply)) _ eq_refl) _ eq_refl) _ eq_refl)
              eq_refl).
  - refine (proj1 (proj2 (proj2 (proj2 (proj2 (C4_normalize_outcomes
              options_reply)) _ eq_refl) _ eq_refl) _ eq_refl) eq_refl).
Defined.

(** ** The chat handler, stage by stage *)

Section Stages.

Variable secret : string.
Variable post : value -> result Response.
Variable uuid4 : string.
Variable now : Z.
Variable rid : string.

Lemma bind_lift_ok {L A B} (a : A) (f : A -> W L B) :
  bind (lift (Ok a)) f = f a.
Proof. unfold bind, lift. destruct (f a). reflexivity. Qed.

(** With the right header the route is the handler. *)
Lemma post_v1_chat_authenticated (request : ChatRequest)
    (thread : option string) :
  post_v1_chat secret post uuid4 now rid (Some ("Bearer " ++ secret)) request thread
  = chat_completion post uuid4 now rid request thread secret.
Proof.
  unfold post_v1_chat.
  rewrite verify_bearer_token_accepts. apply bind_lift_ok.
Qed.

Lemma user_messages_of_ok (msgs : list (list (string * value))) :
  forallb (has_key "role") msgs = true ->
  user_messages_of msgs = Ok (filter is_user msgs).
Proof.
  induction msgs as [|m msgs IH]; intros H; [reflexivity|].
  simpl in H. apply andb_prop in H as [Hm Hrest].
  cbn [user_messages_of filter]. rewrite (IH Hrest).
  unfold has_key, dict_contains in Hm. unfold dict_getitem, is_user.
  destruct (dict_lookup "role" m); [reflexivity | discriminate].
Qed.

Lemma user_messages_of_raise (msgs : list (list (string * value))) :
  forallb (has_key "role") msgs = false ->
  user_messages_of msgs = Raise (KeyError "role").
Proof.
  induction msgs as [|m msgs IH]; intros H; [discriminate|].
  simpl in H. cbn [user_messages_of].
  unfold has_key, dict_contains in H. unfold dict_getitem.
  destruct (dict_lookup "role" m); [|reflexivity].
  simpl in H. rewrite (IH H). reflexivity.
Qed.

Lemma chat_extraction_raises (request : ChatRequest)
    (thread : option string) (token : string) (e : exn) :
  user_messages_of (messages request) = Raise e ->
  chat_completion post uuid4 now rid request thread token = ([], Raise e).
Proof.
  intros H. unfold chat_completion. rewrite H. reflexivity.
Qed.

Lemma chat_no_user_message (request : ChatRequest)
    (thread : option string) (token : string) :
  user_messages_of (messages request) = Ok [] ->
  chat_completion post uuid4 now rid request thread token
  = ([], Raise (HTTPException 400 "No user message found" [])).
Proof.
  intros H. unfold chat_completion. rewrite H. reflexivity.
Qed.

Lemma chat_no_content (request : ChatRequest)
    (thread : option string) (token : string)
    (users : list (list (string * value))) :
  user_messages_of (messages request) = Ok users -> users <> [] ->
  dict_lookup "content" (last users []) = None ->
  chat_completion post uuid4 now rid request thread token = ([], Raise (KeyError "content")).
Proof.
  intros H Hne Hc. unfold chat_completion. rewrite H, bind_lift_ok.
  destruct users as [|u users]; [contradiction|].
  cbn [map truthy negb]. unfold dict_getitem. rewrite Hc. reflexivity.
Qed.

(** Once the query is there, exactly one body is posted. *)
Lemma chat_posts_query (request : ChatRequest)
    (thread : option string) (token : string)
    (users : list (list (string * value))) (query : value) :
  user_messages_of (messages request) = Ok users -> users <> [] ->
  dict_lookup "content" (last users []) = Some query ->
  emitted (chat_completion post uuid4 now rid request thread token) = [talk_body query]
  /\ (forall e, post (talk_body query) = Raise e ->
      outcome (chat_completion post uuid4 now rid request thread token) = Raise backend_failed)
  /\ (forall response, post (talk_body query) = Ok response ->
      status_code response <> 200 ->
      outcome (chat_completion post uuid4 now rid request thread token) = Raise backend_failed).
Proof.
  intros H Hne Hc. unfold chat_completion. rewrite H, bind_lift_ok.
  destruct users as [|u users]; [contradiction|].
  cbn [map truthy negb]. unfold dict_getitem. rewrite Hc, bind_lift_ok.
  unfold send_message. fold (talk_body query).
  destruct (post (talk_body query)) as [r|e]; cbn [bind emit ret app].
  - destruct (status_code r =? 200) eqn:Hs.
    + apply Z.eqb_eq in Hs.
      assert (Hcall : forall o : result reply,
                 emitted ([talk_body query], o) = [talk_body query]
                 /\ (forall e, Ok r = Raise e ->
                     outcome ([talk_body query], o) = Raise backend_failed)
                 /\ (forall response, Ok r = Ok response ->
                     status_code response <> 200 ->
                     outcome ([talk_body query], o) = Raise backend_failed)).
      { intros o. split; [reflexivity|]. split; [discriminate|].
        intros r' [= <-] Hn. contradiction. }
      destruct (negb (response_ok r) || negb true); [apply Hcall|].
      destruct (normalize r); cbn [lift bind]; [destruct (stream request)|];
        apply Hcall.
    + rewrite orb_true_r. repeat split; intros; reflexivity.
  - repeat split; intros; reflexivity.
Qed.

End Stages.

Lemma last_user_last (msgs : list (list (string * value)))
    (m : list (string * value)) :
  last_user msgs = Some m ->
  filter is_user msgs <> [] /\ last (filter is_user msgs) [] = m.
Proof.
  unfold last_user. intros H.
  destruct (rev (filter is_user msgs)) as [|x r] eqn:Hr; [discriminate|].
  injection H as ->.
  apply (f_equal (@rev _)) in Hr. rewrite rev_involutive in Hr.
  cbn [rev] in Hr. rewrite Hr. split.
  - intros E. apply (f_equal (@List.length _)) in E.
    rewrite length_app in E. simpl in E. lia.
  - apply last_last.
Qed.

Lemma last_user_some (msgs : list (list (string * value))) :
  filter is_user msgs <> [] -> exists m, last_user msgs = Some m.
Proof.
  unfold last_user. intros H.
  destruct (rev (filter is_user msgs)) as [|x r] eqn:Hr; [|eauto].
  apply (f_equal (@rev _)) in Hr. rewrite rev_involutive in Hr.
  contradiction.
Qed.

(** ** Query extraction *)

(** C7, as stated, fails: the one message has no role at all, so none has
    role ["user"], and the handler ends in a [KeyError], answered with
    status 500, not in the 400 error. *)
Lemma C7_message_without_role_is_not_400 :
  let request := {| messages := [[("content", PyStr "hi")]];
                    stream := false |} in
  let run := post_v1_chat "s3cret" backend_hello "0123456789abcdef"
               1700000000 "fedcba9876543210" (Some "Bearer s3cret")
               request None in
  existsb is_user (messages request) = false
  /\ run = ([], Raise (KeyError "role"))
  /\ outcome run <> Raise (HTTPException 400 "No user message found" [])
  /\ response_status (KeyError "role") = 500.
Proof.
  cbv zeta. split; [reflexivity|]. split; [reflexivity|].
  split; [discriminate | reflexivity].
Qed.

(** C7, amended.  For an authenticated request none of whose messages has
    role ["user"], nothing is posted to the backend; and when every
    message has a ["role"] key the handler fails with status 400, "No user
    message found". *)
Theorem C7_no_user_message
    (secret : string) (post : value -> result Response)
    (uuid4 : string) (now : Z) (rid : string)
    (request : ChatRequest) (thread : option string)
    (Hnone : filter is_user (messages request) = []) :
  let run := post_v1_chat secret post uuid4 now rid
               (Some ("Bearer " ++ secret)) request thread in
  emitted run = []
  /\ (forallb (has_key "role") (messages request) = true ->
      run = ([], Raise (HTTPException 400 "No user message found" []))
      /\ response_status (HTTPException 400 "No user message found" []) = 400).
Proof.
  cbv zeta. rewrite post_v1_chat_authenticated.
  destruct (forallb (has_key "role") (messages request)) eqn:Hr.
  - pose proof (user_messages_of_ok _ Hr) as Hu. rewrite Hnone in Hu.
    rewrite (chat_no_user_message post uuid4 now rid request thread secret Hu).
    split; [reflexivity|]. intros _. split; reflexivity.
  - rewrite (chat_extraction_raises post uuid4 now rid request thread secret
               _ (user_messages_of_raise _ Hr)).
    split; [reflexivity | discriminate].
Qed.

Lemma C7_no_user_message_witness :
  post_v1_chat "s3cret" backend_hello "0123456789abcdef" 1700000000
    "fedcba9876543210" (Some "Bearer s3cret")
    {| messages := [[("role", PyStr "system"); ("content", PyStr "be brief")]];
       stream := true |} None
  = ([], Raise (HTTPException 400 "No user message found" [])).
Proof.
  exact (proj1 (proj2 (C7_no_user_message "s3cret" backend_hello
                         "0123456789abcdef" 1700000000 "fedcba9876543210"
                         {| messages := [[("role", PyStr "system");
                                          ("content", PyStr "be brief")]];
                            stream := true |} None eq_refl) eq_refl)).
Defined.

(** C8.  For an authenticated request with two or more messages of role
    ["user"], whatever the handler posts to the backend is the one body
    [{"input": {"text": q}}] with [q] the content of the last such message;
    and it does post it when every message has a ["role"] key and that last
    message has a content. *)
Theorem C8_last_user_message_is_sent
    (secret : string) (post : value -> result Response)
    (uuid4 : string) (now : Z) (rid : string)
    (request : ChatRequest) (thread : option string)
    (Htwo : (2 <= List.length (filter is_user (messages request)))%nat) :
  let run := post_v1_chat secret post uuid4 now rid
               (Some ("Bearer " ++ secret)) request thread in
  exists m,
    last_user (messages request) = Some m
    /\ (forall body, In body (emitted run) ->
        exists query,
          dict_lookup "content" m = Some query
          /\ emitted run = [PyDict [("input", PyDict [("text", query)])]])
    /\ (forallb (has_key "role") (messages request) = true ->
        forall query, dict_lookup "content" m = Some query ->
        emitted run = [PyDict [("input", PyDict [("text", query)])]]).
Proof.
  cbv zeta. rewrite post_v1_chat_authenticated.
  assert (Hne : filter is_user (messages request) <> []).
  { intros E. rewrite E in Htwo. simpl in Htwo. lia. }
  destruct (last_user_some _ Hne) as [m Hm]. exists m.
  split; [exact Hm|].
  destruct (last_user_last _ _ Hm) as [_ Hlast].
  destruct (forallb (has_key "role") (messages request)) eqn:Hr.
  - pose proof (user_messages_of_ok _ Hr) as Hu.
    destruct (dict_lookup "content" m) as [q|] eqn:Hc.
    + rewrite <- Hlast in Hc.
      destruct (chat_posts_query post uuid4 now rid request thread secret
                  _ q Hu Hne Hc) as [He _].
      split.
      * intros body _. exists q. split; [reflexivity | exact He].
      * intros _ query [= <-]. exact He.
    + rewrite <- Hlast in Hc.
      rewrite (chat_no_content post uuid4 now rid request thread secret
                 _ Hu Hne Hc).
      split; [intros body [] | intros _ query; discriminate].
  - rewrite (chat_extraction_raises post uuid4 now rid request thread secret
               _ (user_messages_of_raise _ Hr)).
    split; [intros body [] | discriminate].
Qed.

Lemma C8_last_user_message_is_sent_witness :
  emitted
    (post_v1_chat "s3cret" backend_hello "0123456789abcdef" 1700000000
       "fedcba9876543210" (Some "Bearer s3cret")
       {| messages := [user_msg "first";
                       [("role", PyStr "assistant"); ("content", PyStr "yes?")];
                       user_msg "second"];
          stream := false |} None)
  = [PyDict [("input", PyDict [("text", PyStr "second")])]].
Proof.
  destruct (C8_last_user_message_is_sent "s3cret" backend_hello
              "0123456789abcdef" 1700000000 "fedcba9876543210"
              {| messages := [user_msg "first";
                              [("role", PyStr "assistant");
                               ("content", PyStr "yes?")];
                              user_msg "second"];
                 stream := false |} None (le_n 2)) as (m & Hm & _ & H).
  injection Hm as <-. exact (H eq_refl _ eq_refl).
Defined.

(** ** Backend failures *)

(** C9.  Whenever the handler has posted a body to the backend and the
    call either raised or came back with a status other than 200, the
    handler fails with the same error: status 500, "Failed to get response
    from Red Hat Console API".  The request, and so its [stream] flag, is
    arbitrary. *)
Theorem C9_backend_failure_is_500
    (secret : string) (post : value -> result Response)
    (uuid4 : string) (now : Z) (rid : string)
    (authorization : option string)
    (request : ChatRequest) (thread : option string) (body : value)
    (Hcall : In body
               (emitted (post_v1_chat secret post uuid4 now rid
                           authorization request thread)))
    (Hfail : (exists e, post body = Raise e)
             \/ (exists response,
                   post body = Ok response /\ status_code response <> 200)) :
  post_v1_chat secret post uuid4 now rid authorization request thread
  = ([body],
     Raise (HTTPException 500
              "Failed to get response from Red Hat Console API" []))
  /\ response_status
       (HTTPException 500
          "Failed to get response from Red Hat Console API" []) = 500.
Proof.
  split; [|reflexivity]. revert Hcall.
  destruct (verify_bearer_token secret authorization) as [token|e] eqn:Hv.
  2:{ unfold post_v1_chat. rewrite Hv. intros []. }
  apply verify_bearer_token_ok_inv in Hv as [-> ->].
  rewrite post_v1_chat_authenticated.
  destruct (user_messages_of (messages request)) as [users|e] eqn:Hu.
  2:{ rewrite (chat_extraction_raises post uuid4 now rid request thread
                 secret e Hu). intros []. }
  destruct users as [|u users].
  { rewrite (chat_no_user_message post uuid4 now rid request thread secret Hu).
    intros []. }
  destruct (dict_lookup "content" (last (u :: users) [])) as [q|] eqn:Hc.
  2:{ rewrite (chat_no_content post uuid4 now rid request thread secret
                 (u :: users) Hu ltac:(discriminate) Hc). intros []. }
  destruct (chat_posts_query post uuid4 now rid request thread secret
              (u :: users) q Hu ltac:(discriminate) Hc) as (He & Hraise & Hst).
  rewrite He. intros [<- | []].
  destruct (chat_completion post uuid4 now rid request thread secret)
    as [l o] eqn:Hrun.
  unfold emitted, outcome in *. cbn [fst snd] in *. subst l. f_equal.
  destruct Hfail as [[e Hp] | (r & Hp & Hs)];
    [exact (Hraise e Hp) | exact (Hst r Hp Hs)].
Qed.

Lemma C9_backend_failure_is_500_witness :
  (forall flag,
      post_v1_chat "s3cret" backend_503 "0123456789abcdef" 1700000000
        "fedcba9876543210" (Some "Bearer s3cret")
        {| messages := [user_msg "hi"]; stream := flag |} None
      = ([talk_body (PyStr "hi")], Raise backend_failed))
  /\ post_v1_chat "s3cret" backend_down "0123456789abcdef" 1700000000
       "fedcba9876543210" (Some "Bearer s3cret")
       {| messages := [user_msg "hi"]; stream := true |} None
     = ([talk_body (PyStr "hi")], Raise backend_failed).
Proof.
  split.
  - intros flag.
    refine (proj1 (C9_backend_failure_is_500 "s3cret" backend_503
                     "0123456789abcdef" 1700000000 "fedcba9876543210"
                     (Some "Bearer s3cret")
                     {| messages := [user_msg "hi"]; stream := flag |} None
                     (talk_body (PyStr "hi")) _ _)).
    + destruct flag; left; reflexivity.
    + right. eexists. split; [reflexivity | discriminate].
  - refine (proj1 (C9_backend_failure_is_500 "s3cret" backend_down
                     "0123456789abcdef" 1700000000 "fedcba9876543210"
                     (Some "Bearer s3cret")
                     {| messages := [user_msg "hi"]; stream := true |} None
                     (talk_body (PyStr "hi")) _ _)).
    + left; reflexivity.
    + left. eexists. reflexivity.
Defined.

(** ** Malformed messages *)

(** C10.  For an authenticated request in which some message has no
    ["role"] key, or whose last message of role ["user"] has no ["content"]
    key, the handler raises a [KeyError] that nothing catches: the answer
    has status 500, it is not the 400 error, and nothing is posted to the
    backend. *)
Theorem C10_malformed_message_keyerror
    (secret : string) (post : value -> result Response)
    (uuid4 : string) (now : Z) (rid : string)
    (request : ChatRequest) (thread : option string)
    (Hbad : forallb (has_key "role") (messages request) = false
            \/ (exists m, last_user (messages request) = Some m
                          /\ dict_lookup "content" m = None)) :
  exists key,
    post_v1_chat secret post uuid4 now rid (Some ("Bearer " ++ secret))
                 request thread = ([], Raise (KeyError key))
    /\ (key = "role" \/ key = "content")
    /\ response_status (KeyError key) = 500
    /\ KeyError key <> HTTPException 400 "No user message found" [].
Proof.
  rewrite post_v1_chat_authenticated.
  destruct (forallb (has_key "role") (messages request)) eqn:Hr.
  - destruct Hbad as [Hb | (m & Hm & Hc)]; [discriminate|].
    exists "content".
    destruct (last_user_last _ _ Hm) as [Hne Hlast].
    rewrite <- Hlast in Hc.
    rewrite (chat_no_content post uuid4 now rid request thread secret
               _ (user_messages_of_ok _ Hr) Hne Hc).
    repeat split; auto; discriminate.
  - exists "role".
    rewrite (chat_extraction_raises post uuid4 now rid request thread secret
               _ (user_messages_of_raise _ Hr)).
    repeat split; auto; discriminate.
Qed.

Lemma C10_malformed_message_keyerror_witness :
  (exists key,
      post_v1_chat "s3cret" backend_hello "0123456789abcdef" 1700000000
        "fedcba9876543210" (Some "Bearer s3cret")
        {| messages := [user_msg "hi"; [("content", PyStr "no role")]];
           stream := false |} None
      = ([], Raise (KeyError key)))
  /\ (exists key,
        post_v1_chat "s3cret" backend_hello "0123456789abcdef" 1700000000
          "fedcba9876543210" (Some "Bearer s3cret")
          {| messages := [user_msg "hi"; [("role", PyStr "user")]];
             stream := false |} None
        = ([], Raise (KeyError key))).
Proof.
  split.
  - destruct (C10_malformed_message_keyerror "s3cret" backend_hello
                "0123456789abcdef" 1700000000 "fedcba9876543210"
                {| messages := [user_msg "hi"; [("content", PyStr "no role")]];
                   stream := false |} None (or_introl eq_refl))
      as (key & H & _).
    exists key. exact H.
  - destruct (C10_malformed_message_keyerror "s3cret" backend_hello
                "0123456789abcdef" 1700000000 "fedcba9876543210"
                {| messages := [user_msg "hi"; [("role", PyStr "user")]];
                   stream := false |} None
                (or_intror (ex_intro _ [("role", PyStr "user")]
                              (conj eq_refl eq_refl))))
      as (key & H & _).
    exists key. exact H.
Defined.

Lemma C6_bearer_authentication_witness :
  verify_bearer_token "s3cret" (Some "Bearer s3cret") = Ok "s3cret"
  /\ verify_bearer_token "s3cret" (Some "Basic s3cret")
     = Raise (HTTPException 401
                "Authorization header must start with 'Bearer '"
                [("WWW-Authenticate", "Bearer")])
  /\ verify_bearer_token "s3cret" (Some "Bearer guess")
     = Raise (HTTPException 401 "Invalid bearer token"
                [("WWW-Authenticate", "Bearer")]).
Proof.
  split; [|split].
  - apply (proj1 (C6_bearer_authentication "s3cret" backend_hello
                    "0123456789abcdef" 1700000000 "fedcba9876543210"
                    (Some "Bearer s3cret"))).
    split; reflexivity.
  - apply (proj1 (proj2 (proj2 (C6_bearer_authentication "s3cret"
                    backend_hello "0123456789abcdef" 1700000000
                    "fedcba9876543210" (Some "Basic s3cret"))))
             "Basic s3cret"); [reflexivity | discriminate | reflexivity].
  - apply (proj1 (proj2 (proj2 (proj2 (C6_bearer_authentication "s3cret"
                    backend_hello "0123456789abcdef" 1700000000
                    "fedcba9876543210" (Some "Bearer guess")))))
             "guess"); [reflexivity | discriminate].
Defined.

(** * Further properties of the gateway *)

(** ** The backend client *)


(** ** The handler after the query is there *)

Lemma status_200_ok (r : Response) :
  status_code r = 200 ->
  negb (response_ok r) || negb (status_code r =? 200) = false.
Proof. intros H. unfold response_ok. rewrite H. reflexivity. Qed.

Lemma status_not_200 (r : Response) :
  status_code r <> 200 ->
  negb (response_ok r) || negb (status_code r =? 200) = true.
Proof.
  intros H. apply Z.eqb_neq in H. rewrite H. apply orb_true_r.
Qed.

(** The whole run of the handler from the call on. *)
Lemma chat_called_run (post : value -> result Response)
    (uuid4 : string) (now : Z) (rid : string) (request : ChatRequest)
    (thread : option string) (token : string)
    (users : list (list (string * value))) (query : value) :
  user_messages_of (messages request) = Ok users -> users <> [] ->
  dict_lookup "content" (last users []) = Some query ->
  chat_completion post uuid4 now rid request thread token
  = ([talk_body query],
     match post (talk_body query) with
     | Raise _ => Raise backend_failed
     | Ok r =>
         if status_code r =? 200 then
           match normalize r with
           | Ok c => Ok (chat_reply uuid4 now rid request c)
           | Raise e => Raise e
           end
         else Raise backend_failed
     end).
Proof.
  intros H Hne Hc. unfold chat_completion. rewrite H, bind_lift_ok.
  destruct users as [|u users]; [contradiction|].
  cbn [map truthy negb]. unfold dict_getitem. rewrite Hc, bind_lift_ok.
  unfold send_message. fold (talk_body query).
  destruct (post (talk_body query)) as [r|e]; cbn [bind emit ret app];
    [|reflexivity].
  destruct (Z.eq_dec (status_code r) 200) as [Hs|Hs].
  - rewrite (status_200_ok r Hs), (proj2 (Z.eqb_eq _ _) Hs).
    destruct (normalize r); cbn [lift bind]; [|reflexivity].
    unfold chat_reply. destruct (stream request); reflexivity.
  - rewrite (status_not_200 r Hs), (proj2 (Z.eqb_neq _ _) Hs). reflexivity.
Qed.

Lemma verify_bearer_token_details (secret : string) (a : option string)
    (e : exn) :
  verify_bearer_token secret a = Raise e ->
  e = unauthorized "Authorization header required"
  \/ e = unauthorized "Authorization header must start with 'Bearer '"
  \/ e = unauthorized "Invalid bearer token".
Proof.
  unfold verify_bearer_token. destruct a as [s|].
  - destruct (negb (truthy (PyStr s))); [intros [= <-]; auto|].
    destruct (negb (startswith s "Bearer ")); [intros [= <-]; auto|].
    destruct (negb _); [intros [= <-]; auto | discriminate].
  - intros [= <-]; auto.
Qed.

Lemma user_messages_of_inv (msgs users : list (list (string * value))) :
  user_messages_of msgs = Ok users ->
  forallb (has_key "role") msgs = true /\ users = filter is_user msgs.
Proof.
  intros H. destruct (forallb (has_key "role") msgs) eqn:Hr.
  - rewrite (user_messages_of_ok _ Hr) in H. injection H as <-. auto.
  - rewrite (user_messages_of_raise _ Hr) in H. discriminate.
Qed.

Lemma user_messages_of_raise_inv (msgs : list (list (string * value)))
    (e : exn) :
  user_messages_of msgs = Raise e -> e = KeyError "role".
Proof.
  intros H. destruct (forallb (has_key "role") msgs) eqn:Hr.
  - rewrite (user_messages_of_ok _ Hr) in H. discriminate.
  - rewrite (user_messages_of_raise _ Hr) in H. now injection H as <-.
Qed.

Lemma normalize_raise_inv (r : Response) (e : exn) :
  normalize r = Raise e -> e = invalid_response.
Proof.
  unfold normalize. destruct (parse_response r); [discriminate|].
  now intros [= <-].
Qed.

(** The stages of the route: refused, extraction failed (three ways), or
    called. *)
Lemma post_v1_chat_cases (secret : string) (post : value -> result Response)
    (uuid4 : string) (now : Z) (rid : string)
    (authorization : option string) (request : ChatRequest)
    (thread : option string) :
  (exists e, verify_bearer_token secret authorization = Raise e
             /\ post_v1_chat secret post uuid4 now rid authorization
                  request thread = ([], Raise e))
  \/ (authorization = Some ("Bearer " ++ secret)
      /\ ((forallb (has_key "role") (messages request) = false
           /\ post_v1_chat secret post uuid4 now rid authorization
                request thread = ([], Raise (KeyError "role")))
          \/ (forallb (has_key "role") (messages request) = true
              /\ filter is_user (messages request) = []
              /\ post_v1_chat secret post uuid4 now rid authorization
                   request thread
                 = ([], Raise (HTTPException 400 "No user message found" [])))
          \/ (exists m,
                forallb (has_key "role") (messages request) = true
                /\ last_user (messages request) = Some m
                /\ dict_lookup "content" m = None
                /\ post_v1_chat secret post uuid4 now rid authorization
                     request thread = ([], Raise (KeyError "content")))
          \/ (exists m query,
                forallb (has_key "role") (messages request) = true
                /\ last_user (messages request) = Some m
                /\ dict_lookup "content" m = Some query
                /\ post_v1_chat secret post uuid4 now rid authorization
                     request thread
                   = ([talk_body query],
                      match post (talk_body query) with
                      | Raise _ => Raise backend_failed
                      | Ok r =>
                          if status_code r =? 200 then
                            match normalize r with
                            | Ok c => Ok (chat_reply uuid4 now rid request c)
                            | Raise e => Raise e
                            end
                          else Raise backend_failed
                      end)))).
Proof.
  destruct (verify_bearer_token secret authorization) as [token|e] eqn:Hv.
  2:{ left. exists e. split; [reflexivity|].
      unfold post_v1_chat. rewrite Hv. reflexivity. }
  right. apply verify_bearer_token_ok_inv in Hv as [-> ->].
  split; [reflexivity|]. rewrite post_v1_chat_authenticated.
  destruct (forallb (has_key "role") (messages request)) eqn:Hr.
  2:{ left. split; [reflexivity|].
      apply chat_extraction_raises, user_messages_of_raise, Hr. }
  right. pose proof (user_messages_of_ok _ Hr) as Hu.
  destruct (filter is_user (messages request)) as [|u us] eqn:Hf.
  { left. split; [reflexivity|]. split; [reflexivity|].
    apply chat_no_user_message, Hu. }
  right.
  assert (Hne : filter is_user (messages request) <> [])
    by (rewrite Hf; discriminate).
  destruct (last_user_some _ Hne) as [m Hm].
  destruct (last_user_last _ _ Hm) as [_ Hlast]. rewrite Hf in Hlast.
  destruct (dict_lookup "content" m) as [q|] eqn:Hc.
  - right. exists m, q. repeat (split; [reflexivity || assumption|]).
    apply (chat_called_run post uuid4 now rid request thread secret
             (u :: us) q Hu); [discriminate | now rewrite Hlast].
  - left. exists m. repeat (split; [reflexivity || assumption|]).
    apply (chat_no_content post uuid4 now rid request thread secret
             (u :: us) Hu); [discriminate | now rewrite Hlast].
Qed.

(** ** What the chat route does, over all inputs *)

(** For every header and request the route posts nothing or exactly one
    body, and a body is posted only for the right header: it is
    [{"input": {"text": q}}] with [q] the content of the last message of
    role ["user"].  The handler never calls the backend twice. *)
Theorem post_v1_chat_at_most_one_call
    (secret : string) (post : value -> result Response)
    (uuid4 : string) (now : Z) (rid : string)
    (authorization : option string) (request : ChatRequest)
    (thread : option string) :
  let run := post_v1_chat secret post uuid4 now rid authorization
               request thread in
  (List.length (emitted run) <= 1)%nat
  /\ (emitted run = []
      \/ exists m query,
           authorization = Some ("Bearer " ++ secret)
           /\ last_user (messages request) = Some m
           /\ dict_lookup "content" m = Some query
           /\ emitted run = [PyDict [("input", PyDict [("text", query)])]]).
Proof.
  cbv zeta.
  destruct (post_v1_chat_cases secret post uuid4 now rid authorization
              request thread)
    as [(e & _ & ->)
       | (Ha & [(_ & ->) | [(_ & _ & ->) | [(m & _ & _ & _ & ->)
                | (m & q & _ & Hm & Hc & ->)]]])];
    cbn [emitted fst List.length]; split; try lia; auto.
  right. exists m, q. auto.
Qed.

(** Whatever the route raises is one of eight exceptions: the three 401
    refusals, the 400 for no user message, a [KeyError] on ["role"] or
    ["content"], and the two 500 errors; so a failed request is answered
    with status 400, 401 or 500. *)
Theorem post_v1_chat_raises_only
    (secret : string) (post : value -> result Response)
    (uuid4 : string) (now : Z) (rid : string)
    (authorization : option string) (request : ChatRequest)
    (thread : option string) (e : exn)
    (H : outcome (post_v1_chat secret post uuid4 now rid authorization
                    request thread) = Raise e) :
  In e [HTTPException 401 "Authorization header required"
          [("WWW-Authenticate", "Bearer")];
        HTTPException 401 "Authorization header must start with 'Bearer '"
          [("WWW-Authenticate", "Bearer")];
        HTTPException 401 "Invalid bearer token"
          [("WWW-Authenticate", "Bearer")];
        HTTPException 400 "No user message found" [];
        KeyError "role";
        KeyError "content";
        HTTPException 500 "Failed to get response from Red Hat Console API" [];
        HTTPException 500 "Invalid response from Red Hat Console API" []]
  /\ (response_status e = 400 \/ response_status e = 401
      \/ response_status e = 500).
Proof.
  assert (Hin : In e
     [HTTPException 401 "Authorization header required"
        [("WWW-Authenticate", "Bearer")];
      HTTPException 401 "Authorization header must start with 'Bearer '"
        [("WWW-Authenticate", "Bearer")];
      HTTPException 401 "Invalid bearer token"
        [("WWW-Authenticate", "Bearer")];
      HTTPException 400 "No user message found" [];
      KeyError "role";
      KeyError "content";
      HTTPException 500 "Failed to get response from Red Hat Console API" [];
      HTTPException 500 "Invalid response from Red Hat Console API" []]).
  { revert H.
    destruct (post_v1_chat_cases secret post uuid4 now rid authorization
                request thread)
      as [(e' & Hv & ->)
         | (Ha & [(_ & ->) | [(_ & _ & ->) | [(m & _ & _ & _ & ->)
                  | (m & q & _ & Hm & Hc & ->)]]])];
      cbn [outcome snd]; try (intros [= <-]; cbn [In]; tauto).
    - intros [= <-].
      destruct (verify_bearer_token_details _ _ _ Hv) as [-> | [-> | ->]];
        cbn [In]; tauto.
    - destruct (post (talk_body q)) as [r|e'];
        [|intros [= <-]; cbn [In]; tauto].
      destruct (status_code r =? 200); [|intros [= <-]; cbn [In]; tauto].
      destruct (normalize r) as [c|e'] eqn:Hn; [discriminate|].
      intros [= <-]. rewrite (normalize_raise_inv _ _ Hn). cbn [In]. tauto. }
  split; [exact Hin|].
  cbn [In] in Hin.
  repeat (destruct Hin as [<- | Hin]; [cbn [response_status]; tauto|]).
  contradiction.
Qed.

Lemma post_v1_chat_raises_only_witness :
  In (KeyError "role")
     [HTTPException 401 "Authorization header required"
        [("WWW-Authenticate", "Bearer")];
      HTTPException 401 "Authorization header must start with 'Bearer '"
        [("WWW-Authenticate", "Bearer")];
      HTTPException 401 "Invalid bearer token"
        [("WWW-Authenticate", "Bearer")];
      HTTPException 400 "No user message found" [];
      KeyError "role";
      KeyError "content";
      HTTPException 500 "Failed to get response from Red Hat Console API" [];
      HTTPException 500 "Invalid response from Red Hat Console API" []].
Proof.
  exact (proj1 (post_v1_chat_raises_only "s3cret" backend_hello
                  "0123456789abcdef" 1700000000 "fedcba9876543210"
                  (Some "Bearer s3cret")
                  {| messages := [[("content", PyStr "hi")]];
                     stream := false |} None (KeyError "role") eq_refl)).
Defined.

(** The run of the route once it has posted [body]. *)
Lemma post_v1_chat_called (secret : string) (post : value -> result Response)
    (uuid4 : string) (now : Z) (rid : string)
    (authorization : option string) (request : ChatRequest)
    (thread : option string) (body : value) :
  In body (emitted (post_v1_chat secret post uuid4 now rid authorization
                      request thread)) ->
  post_v1_chat secret post uuid4 now rid authorization request thread
  = ([body],
     match post body with
     | Raise _ => Raise backend_failed
     | Ok r =>
         if status_code r =? 200 then
           match normalize r with
           | Ok c => Ok (chat_reply uuid4 now rid request c)
           | Raise e => Raise e
           end
         else Raise backend_failed
     end).
Proof.
  destruct (post_v1_chat_cases secret post uuid4 now rid authorization
              request thread)
    as [(e & _ & ->)
       | (Ha & [(_ & ->) | [(_ & _ & ->) | [(m & _ & _ & _ & ->)
                | (m & q & _ & Hm & Hc & ->)]]])];
    cbn [emitted fst In]; try contradiction.
  intros [<- | []]. reflexivity.
Qed.

(** After a call the handler fails with the backend error exactly when
    the call raised or the status is not 200: a status of 200 never gives
    that error, and every other status does, 2xx and 3xx included. *)
Theorem backend_error_iff_not_200
    (secret : string) (post : value -> result Response)
    (uuid4 : string) (now : Z) (rid : string)
    (authorization : option string) (request : ChatRequest)
    (thread : option string) (body : value)
    (Hcall : In body
               (emitted (post_v1_chat secret post uuid4 now rid
                           authorization request thread))) :
  outcome (post_v1_chat secret post uuid4 now rid authorization
             request thread)
  = Raise (HTTPException 500
             "Failed to get response from Red Hat Console API" [])
  <-> ((exists e, post body = Raise e)
       \/ (exists response,
             post body = Ok response /\ status_code response <> 200)).
Proof.
  rewrite (post_v1_chat_called _ _ _ _ _ _ _ _ _ Hcall). cbn [outcome snd].
  destruct (post body) as [r|e].
  - destruct (Z.eq_dec (status_code r) 200) as [Hs|Hs].
    + rewrite (proj2 (Z.eqb_eq _ _) Hs). split.
      * destruct (normalize r) as [c|e] eqn:Hn; [discriminate|].
        rewrite (normalize_raise_inv _ _ Hn). discriminate.
      * intros [[e He] | (r' & [= <-] & Hne)]; [discriminate | contradiction].
    + rewrite (proj2 (Z.eqb_neq _ _) Hs). split; [|reflexivity].
      intros _. right. exists r. auto.
  - split; [|reflexivity]. intros _. left. eauto.
Qed.

Lemma backend_error_iff_not_200_witness :
  outcome (post_v1_chat "s3cret" backend_204 "0123456789abcdef" 1700000000
             "fedcba9876543210" (Some "Bearer s3cret")
             {| messages := [user_msg "hi"]; stream := false |} None)
  = Raise backend_failed.
Proof.
  apply (proj2 (backend_error_iff_not_200 "s3cret" backend_204
                  "0123456789abcdef" 1700000000 "fedcba9876543210"
                  (Some "Bearer s3cret")
                  {| messages := [user_msg "hi"]; stream := false |} None
                  (talk_body (PyStr "hi")) (or_introl eq_refl))).
  right. eexists. split; [reflexivity | discriminate].
Defined.

(** A 200 answer whose body is not JSON: one call, then the 500
    "Invalid response" error, for either value of [stream]. *)
Theorem not_json_body_is_500
    (secret : string) (post : value -> result Response)
    (uuid4 : string) (now : Z) (rid : string)
    (authorization : option string) (request : ChatRequest)
    (thread : option string) (body : value) (response : Response) (e : exn)
    (Hcall : In body
               (emitted (post_v1_chat secret post uuid4 now rid
                           authorization request thread)))
    (Hpost : post body = Ok response)
    (Hstatus : status_code response = 200)
    (Hjson : json response = Raise e) :
  post_v1_chat secret post uuid4 now rid authorization request thread
  = ([body],
     Raise (HTTPException 500 "Invalid response from Red Hat Console API" []))
  /\ response_status
       (HTTPException 500 "Invalid response from Red Hat Console API" [])
     = 500.
Proof.
  split; [|reflexivity].
  rewrite (post_v1_chat_called _ _ _ _ _ _ _ _ _ Hcall), Hpost.
  rewrite (proj2 (Z.eqb_eq _ _) Hstatus), (normalize_not_json _ _ Hjson).
  reflexivity.
Qed.

Lemma not_json_body_is_500_witness :
  post_v1_chat "s3cret" backend_not_json "0123456789abcdef" 1700000000
    "fedcba9876543210" (Some "Bearer s3cret")
    {| messages := [user_msg "hi"]; stream := true |} None
  = ([talk_body (PyStr "hi")], Raise invalid_response)
  /\ post_v1_chat "s3cret" backend_not_json "0123456789abcdef" 1700000000
       "fedcba9876543210" (Some "Bearer s3cret")
       {| messages := [user_msg "hi"]; stream := false |} None
     = ([talk_body (PyStr "hi")], Raise invalid_response).
Proof.
  split.
  - exact (proj1 (not_json_body_is_500 "s3cret" backend_not_json
                    "0123456789abcdef" 1700000000 "fedcba9876543210"
                    (Some "Bearer s3cret")
                    {| messages := [user_msg "hi"]; stream := true |} None
                    (talk_body (PyStr "hi")) _
                    (JSONDecodeError "Expecting value") (or_introl eq_refl)
                    eq_refl eq_refl eq_refl)).
  - exact (proj1 (not_json_body_is_500 "s3cret" backend_not_json
                    "0123456789abcdef" 1700000000 "fedcba9876543210"
                    (Some "Bearer s3cret")
                    {| messages := [user_msg "hi"]; stream := false |} None
                    (talk_body (PyStr "hi")) _
                    (JSONDecodeError "Expecting value") (or_introl eq_refl)
                    eq_refl eq_refl eq_refl)).
Defined.

(** With [stream] false, a 200 answer that normalises to [c] gives the
    completion object: [object] is ["chat.completion"], there is exactly
    one choice, of index 0, its message has role ["assistant"] and content
    [c], its [finish_reason] is ["stop"], and the id is ["chatcmpl-"] and
    the first eight characters of the uuid. *)
Theorem completion_reply_shape
    (secret : string) (post : value -> result Response)
    (uuid4 : string) (now : Z) (rid : string)
    (authorization : option string) (request : ChatRequest)
    (thread : option string) (body : value) (response : Response)
    (c : value)
    (Hcall : In body
               (emitted (post_v1_chat secret post uuid4 now rid
                           authorization request thread)))
    (Hpost : post body = Ok response)
    (Hstatus : status_code response = 200)
    (Hnorm : normalize response = Ok c)
    (Hstream : stream request = false) :
  exists b,
    post_v1_chat secret post uuid4 now rid authorization request thread
    = ([body], Ok (JSONBody b))
    /\ item b "object" = Some (PyStr "chat.completion")
    /\ item b "id" = Some (PyStr ("chatcmpl-" ++ slice_to 8 uuid4))
    /\ item b "created" = Some (PyInt now)
    /\ item b "model" = Some (PyStr "red-hat-console-agent")
    /\ choices_count b = Some 1%nat
    /\ choice0 b "index" = Some (PyInt 0)
    /\ message0 b "role" = Some (PyStr "assistant")
    /\ message0 b "content" = Some c
    /\ choice0 b "finish_reason" = Some (PyStr "stop").
Proof.
  exists (completion_body uuid4 now c). split; [|repeat split].
  rewrite (post_v1_chat_called _ _ _ _ _ _ _ _ _ Hcall), Hpost.
  rewrite (proj2 (Z.eqb_eq _ _) Hstatus), Hnorm.
  unfold chat_reply. rewrite Hstream. reflexivity.
Qed.

Lemma completion_reply_shape_witness :
  exists b,
    post_v1_chat "s3cret" backend_hello "0123456789abcdef" 1700000000
      "fedcba9876543210" (Some "Bearer s3cret")
      {| messages := [user_msg "hi"]; stream := false |} None
    = ([talk_body (PyStr "hi")], Ok (JSONBody b))
    /\ message0 b "content" = Some (PyStr "Hello").
Proof.
  destruct (completion_reply_shape "s3cret" backend_hello
              "0123456789abcdef" 1700000000 "fedcba9876543210"
              (Some "Bearer s3cret")
              {| messages := [user_msg "hi"]; stream := false |} None
              (talk_body (PyStr "hi")) text_reply (PyStr "Hello")
              (or_introl eq_refl) eq_refl eq_refl eq_refl eq_refl)
    as (b & H & _ & _ & _ & _ & _ & _ & _ & Hc & _).
  exists b. split; [exact H | exact Hc].
Defined.

(** With [stream] true, a 200 answer whose body is JSON and normalises
    gives an event stream of exactly three frames, two chunks and the
    sentinel, and the generator ends normally: the handler never reaches
    the error frame of the generator. *)
Theorem streaming_reply_three_frames
    (secret : string) (post : value -> result Response)
    (uuid4 : string) (now : Z) (rid : string)
    (authorization : option string) (request : ChatRequest)
    (thread : option string) (body : value) (response : Response)
    (data c : value)
    (Hcall : In body
               (emitted (post_v1_chat secret post uuid4 now rid
                           authorization request thread)))
    (Hpost : post body = Ok response)
    (Hstatus : status_code response = 200)
    (Hjson : json response = Ok data)
    (Hdata : is_json data = true)
    (Hnorm : normalize response = Ok c)
    (Hstream : stream request = true) :
  exists j1 j2,
    post_v1_chat secret post uuid4 now rid authorization request thread
    = ([body],
       Ok (StreamingResponse
             ([data_frame j1; data_frame j2; "data: [DONE]" ++ nl ++ nl],
              Ok tt)
             "text/event-stream"))
    /\ json_dumps (chunk uuid4 now (PyDict [("content", c)]) PyNone) = Ok j1
    /\ json_dumps (chunk uuid4 now (PyDict []) (PyStr "stop")) = Ok j2.
Proof.
  pose proof (normalize_is_json _ _ _ Hjson Hdata Hnorm) as Hc.
  destruct (json_dumps_total _ Hc) as [jc Hjc].
  assert (Hd : json_dumps (PyDict [("content", c)])
               = Ok ("{" ++ json_string "content" ++ ": " ++ jc ++ "}")).
  { rewrite json_dumps_content, Hjc. reflexivity. }
  destruct (json_dumps_chunk uuid4 now (PyDict [("content", c)]) PyNone
              _ _ Hd eq_refl) as [j1 H1].
  destruct (json_dumps_chunk uuid4 now (PyDict []) (PyStr "stop")
              _ _ eq_refl eq_refl) as [j2 H2].
  exists j1, j2. split; [|split; assumption].
  rewrite (post_v1_chat_called _ _ _ _ _ _ _ _ _ Hcall), Hpost.
  rewrite (proj2 (Z.eqb_eq _ _) Hstatus), Hnorm.
  unfold chat_reply. rewrite Hstream.
  rewrite (simulate_streaming_response_ok uuid4 now c _ j1 j2 H1 H2).
  reflexivity.
Qed.

Lemma streaming_reply_three_frames_witness :
  exists j1 j2,
    post_v1_chat "s3cret" backend_options "0123456789abcdef" 1700000000
      "fedcba9876543210" (Some "Bearer s3cret")
      {| messages := [user_msg "hi"]; stream := true |} None
    = ([talk_body (PyStr "hi")],
       Ok (StreamingResponse ([data_frame j1; data_frame j2; DONE], Ok tt)
                             "text/event-stream")).
Proof.
  destruct (streaming_reply_three_frames "s3cret" backend_options
              "0123456789abcdef" 1700000000 "fedcba9876543210"
              (Some "Bearer s3cret")
              {| messages := [user_msg "hi"]; stream := true |} None
              (talk_body (PyStr "hi")) options_reply _
              (PyStr ("Pick" ++ nl ++ nl ++ "Options:" ++ nl ++ "1. A"
                      ++ nl ++ "2. B" ++ nl ++ "3. Option 3"))
              (or_introl eq_refl) eq_refl eq_refl eq_refl eq_refl
              eq_refl eq_refl)
    as (j1 & j2 & H & _).
  exists j1, j2. exact H.
Defined.

(** Two requests with the same messages, whatever their [stream] flags
    and thread ids, post the same bodies and fail with the same exception
    or both succeed: the flag only chooses the form of a successful
    reply. *)
Theorem stream_flag_only_shapes_reply
    (secret : string) (post : value -> result Response)
    (uuid4 : string) (now : Z) (rid : string)
    (authorization : option string) (request1 request2 : ChatRequest)
    (thread1 thread2 : option string)
    (Hmsgs : messages request1 = messages request2) :
  let run1 := post_v1_chat secret post uuid4 now rid authorization
                request1 thread1 in
  let run2 := post_v1_chat secret post uuid4 now rid authorization
                request2 thread2 in
  emitted run1 = emitted run2
  /\ (forall e, outcome run1 = Raise e <-> outcome run2 = Raise e)
  /\ ((exists r1, outcome run1 = Ok r1) <-> (exists r2, outcome run2 = Ok r2)).
Proof.
  cbv zeta.
  destruct (post_v1_chat_cases secret post uuid4 now rid authorization
              request1 thread1)
    as [(e1 & Hv1 & ->)
       | (Ha1 & [(Hr1 & ->) | [(Hr1 & Hf1 & ->) | [(m1 & Hr1 & Hm1 & Hc1 & ->)
                | (m1 & q1 & Hr1 & Hm1 & Hc1 & ->)]]])];
    destruct (post_v1_chat_cases secret post uuid4 now rid authorization
                request2 thread2)
      as [(e2 & Hv2 & ->)
         | (Ha2 & [(Hr2 & ->) | [(Hr2 & Hf2 & ->) | [(m2 & Hr2 & Hm2 & Hc2 & ->)
                  | (m2 & q2 & Hr2 & Hm2 & Hc2 & ->)]]])];
    rewrite ?Hmsgs in *; cbn [emitted outcome fst snd];
    try (exfalso; subst; rewrite ?verify_bearer_token_accepts in *;
         congruence);
    try (assert (e1 = e2) by congruence; subst);
    try (split; [reflexivity | split; [tauto | split; intros [? ?];
                                                discriminate]]).
  all: try match goal with
        | Hm : last_user _ = Some _, Hf : filter _ _ = [] |- _ =>
            destruct (last_user_last _ _ Hm) as [Hne _]; contradiction
        end.
  assert (m1 = m2) by congruence; subst m2.
  assert (q1 = q2) by congruence; subst q2.
  split; [reflexivity|].
  destruct (post (talk_body q1)) as [r|e];
    [|split; [tauto | split; intros [? ?]; discriminate]].
  destruct (status_code r =? 200);
    [|split; [tauto | split; intros [? ?]; discriminate]].
  destruct (normalize r) as [c|e];
    [|split; [tauto | split; intros [? ?]; discriminate]].
  split; [split; discriminate | split; intros _; eauto].
Qed.

Lemma stream_flag_only_shapes_reply_witness :
  emitted (post_v1_chat "s3cret" backend_503 "0123456789abcdef" 1700000000
             "fedcba9876543210" (Some "Bearer s3cret")
             {| messages := [user_msg "hi"]; stream := true |} None)
  = emitted (post_v1_chat "s3cret" backend_503 "0123456789abcdef" 1700000000
               "fedcba9876543210" (Some "Bearer s3cret")
               {| messages := [user_msg "hi"]; stream := false |}
               (Some "thread-1")).
Proof.
  exact (proj1 (stream_flag_only_shapes_reply "s3cret" backend_503
                  "0123456789abcdef" 1700000000 "fedcba9876543210"
                  (Some "Bearer s3cret")
                  {| messages := [user_msg "hi"]; stream := true |}
                  {| messages := [user_msg "hi"]; stream := false |}
                  None (Some "thread-1") eq_refl)).
Defined.

(** ** The agents route *)

(** The agents route never calls the backend; it answers exactly for the
    right header, and then with the descriptor of one agent, whose
    capabilities say that it streams. *)
Theorem get_v1_agents_static
    (secret : string) (authorization : option string) :
  emitted (get_v1_agents secret authorization) = []
  /\ (forall d,
        outcome (get_v1_agents secret authorization) = Ok d <->
        authorization = Some ("Bearer " ++ secret) /\ d = agents_descriptor)
  /\ (forall e,
        outcome (get_v1_agents secret authorization) = Raise e ->
        response_status e = 401)
  /\ List.length (agents_of agents_descriptor) = 1%nat
  /\ (forall agent, In agent (agents_of agents_descriptor) ->
      item agent "name" = Some (PyStr "Red Hat Console Agent")
      /\ match item agent "capabilities" with
         | Some caps => item caps "streaming" = Some (PyBool true)
         | None => False
         end).
Proof.
  unfold get_v1_agents.
  destruct (verify_bearer_token secret authorization) as [token|e] eqn:Hv.
  - apply verify_bearer_token_ok_inv in Hv as [-> ->].
    split; [reflexivity|]. split; [|split; [discriminate|]].
    + intros d. cbn. split; [intros [= <-]; auto | intros [_ ->]; reflexivity].
    + split; [reflexivity|]. intros agent [<- | []]. split; reflexivity.
  - split; [reflexivity|]. split; [|split].
    + intros d. cbn. split; [discriminate|]. intros [-> _].
      rewrite verify_bearer_token_accepts in Hv. discriminate.
    + intros e' [= <-].
      destruct (verify_bearer_token_rejects _ _ _ Hv) as [d ->]. reflexivity.
    + split; [reflexivity|]. intros agent [<- | []]. split; reflexivity.
Qed.

(** ** More on normalisation *)

(** Only the first item of ['response'] counts: two answers whose
    payloads have the same first item normalise alike, whatever follows it
    in the list and whatever else the payloads hold. *)
Theorem normalize_first_item_wins
    (response1 response2 : Response) (d1 d2 : list (string * value))
    (response_item : list (string * value)) (rest1 rest2 : list value)
    (Hjson1 : json response1 = Ok (PyDict d1))
    (Hjson2 : json response2 = Ok (PyDict d2))
    (Hresp1 : dict_lookup "response" d1
              = Some (PyList (PyDict response_item :: rest1)))
    (Hresp2 : dict_lookup "response" d2
              = Some (PyList (PyDict response_item :: rest2))) :
  normalize response1 = normalize response2.
Proof.
  pose proof (first_response_item_shape _ _ _ Hresp1) as Hf1.
  pose proof (first_response_item_shape _ _ _ Hresp2) as Hf2.
  unfold normalize.
  destruct (listed_options response_item) as [o|] eqn:Hl.
  - rewrite (parse_response_listing _ _ _ _ Hjson1 Hf1 Hl),
            (parse_response_listing _ _ _ _ Hjson2 Hf2 Hl). reflexivity.
  - rewrite (parse_response_plain _ _ _ Hjson1 Hf1 Hl),
            (parse_response_plain _ _ _ Hjson2 Hf2 Hl). reflexivity.
Qed.

Lemma normalize_first_item_wins_witness :
  normalize two_items_reply = normalize text_reply.
Proof.
  exact (normalize_first_item_wins two_items_reply text_reply _ _ _ _ _
           eq_refl eq_refl eq_refl eq_refl).
Defined.

(** An item of type ["OPTIONS"] whose options are missing or falsy (an
    empty list, null, 0, an empty string or dict) gets no listing and no
    ["Options:"] header: the content is its text. *)
Theorem falsy_options_are_not_listed
    (response : Response) (d response_item : list (string * value))
    (rest : list value)
    (Hjson : json response = Ok (PyDict d))
    (Hresp : dict_lookup "response" d
             = Some (PyList (PyDict response_item :: rest)))
    (Htype : dict_lookup "type" response_item = Some (PyStr "OPTIONS"))
    (Hopts : dict_lookup "options" response_item = None
             \/ exists options,
                  dict_lookup "options" response_item = Some options
                  /\ truthy options = false) :
  normalize response
  = Ok (dict_get response_item "text" (PyStr "No response text")).
Proof.
  unfold normalize.
  rewrite (parse_response_plain response (PyDict d) response_item Hjson
             (first_response_item_shape _ _ _ Hresp)); [reflexivity|].
  unfold listed_options, dict_get. rewrite Htype. cbn [eq_str].
  destruct Hopts as [-> | (o & -> & ->)]; reflexivity.
Qed.

Lemma falsy_options_are_not_listed_witness :
  normalize empty_options_reply = Ok (PyStr "Pick").
Proof.
  refine (falsy_options_are_not_listed empty_options_reply _ _ []
            eq_refl eq_refl eq_refl _).
  right. exists (PyList []). split; reflexivity.
Defined.

Lemma append_options_extends (options : list value) :
  forall (i : Z) (acc : string) (c : value),
    append_options i options (PyStr acc) = Ok c ->
    exists suffix, c = PyStr (acc ++ suffix).
Proof.
  induction options as [|o rest IH]; intros i acc c; cbn [append_options].
  - intros [= <-]. exists EmptyString.
    f_equal. clear. induction acc as [|a acc IH]; simpl; congruence.
  - destruct (py_get o "text" _) as [t|e]; [|discriminate].
    cbn [ResultMonad.bind py_iadd_str]. intros H.
    destruct (IH _ _ _ H) as [s ->]. eexists.
    rewrite append_assoc. reflexivity.
Qed.

(** Normalisation only appends: when the first item's text is a str (or
    is absent) and there is content, the content is that text followed by
    nothing or by a listing that begins with two newlines and
    ["Options:"]. *)
Theorem normalize_only_appends
    (response : Response) (d response_item : list (string * value))
    (rest : list value) (base : string) (c : value)
    (Hjson : json response = Ok (PyDict d))
    (Hresp : dict_lookup "response" d
             = Some (PyList (PyDict response_item :: rest)))
    (Hbase : dict_get response_item "text" (PyStr "No response text")
             = PyStr base)
    (Hnorm : normalize response = Ok c) :
  c = PyStr base
  \/ exists listing,
       c = PyStr (base ++ nl ++ nl ++ "Options:" ++ listing).
Proof.
  pose proof (first_response_item_shape _ _ _ Hresp) as Hf.
  revert Hnorm. unfold normalize.
  destruct (listed_options response_item) as [o|] eqn:Hl.
  - rewrite (parse_response_listing _ _ _ _ Hjson Hf Hl), Hbase.
    cbn [py_iadd_str ResultMonad.bind].
    destruct (py_iter o) as [items|e]; [|discriminate].
    cbn [ResultMonad.bind].
    destruct (append_options 1 items _) as [c'|e] eqn:Ha; [|discriminate].
    intros [= <-]. right.
    destruct (append_options_extends _ _ _ _ Ha) as [s ->].
    exists s. rewrite !append_assoc. reflexivity.
  - rewrite (parse_response_plain _ _ _ Hjson Hf Hl), Hbase.
    intros [= <-]. left. reflexivity.
Qed.

Lemma normalize_only_appends_witness :
  PyStr ("Pick" ++ nl ++ nl ++ "Options:" ++ nl ++ "1. A"
         ++ nl ++ "2. B" ++ nl ++ "3. Option 3") = PyStr "Pick"
  \/ exists listing,
       PyStr ("Pick" ++ nl ++ nl ++ "Options:" ++ nl ++ "1. A"
              ++ nl ++ "2. B" ++ nl ++ "3. Option 3")
       = PyStr ("Pick" ++ nl ++ nl ++ "Options:" ++ listing).
Proof.
  exact (normalize_only_appends options_reply _ _ [] "Pick" _
           eq_refl eq_refl eq_refl eq_refl).
Defined.

(** ** The stream on the wire *)

Lemma all_printable_app (a b : string) :
  all_printable (a ++ b) = all_printable a && all_printable b.
Proof.
  induction a as [|x a IH]; cbn [append all_printable]; [reflexivity|].
  rewrite IH. apply andb_assoc.
Qed.

Lemma escape_char_printable (a : ascii) : all_printable (escape_char a) = true.
Proof. destruct a as [[] [] [] [] [] [] [] []]; reflexivity. Qed.

Lemma escape_chars_printable (s : string) :
  all_printable (escape_chars s) = true.
Proof.
  induction s as [|a s IH]; [reflexivity|].
  cbn [escape_chars]. now rewrite all_printable_app, escape_char_printable.
Qed.

Lemma json_string_printable (s : string) :
  all_printable (json_string s) = true.
Proof.
  unfold json_string.
  now rewrite !all_printable_app, escape_chars_printable.
Qed.

Lemma string_of_uint_printable (d : Decimal.uint) :
  all_printable (NilEmpty.string_of_uint d) = true.
Proof. induction d; cbn; auto. Qed.

Lemma str_int_printable (z : Z) : all_printable (str_int z) = true.
Proof.
  unfold str_int, NilZero.string_of_int, NilZero.string_of_uint.
  destruct (Z.to_int z) as [d|d]; destruct d;
    try reflexivity;
    try (apply (string_of_uint_printable (Decimal.D0 _))
         || apply (string_of_uint_printable (Decimal.D1 _))
         || apply (string_of_uint_printable (Decimal.D2 _))
         || apply (string_of_uint_printable (Decimal.D3 _))
         || apply (string_of_uint_printable (Decimal.D4 _))
         || apply (string_of_uint_printable (Decimal.D5 _))
         || apply (string_of_uint_printable (Decimal.D6 _))
         || apply (string_of_uint_printable (Decimal.D7 _))
         || apply (string_of_uint_printable (Decimal.D8 _))
         || apply (string_of_uint_printable (Decimal.D9 _))).
Qed.

Lemma json_float_printable (r : string) :
  all_printable r = true -> all_printable (json_float r) = true.
Proof.
  intros H. unfold json_float.
  repeat (destruct (String.eqb r _); [reflexivity|]). exact H.
Qed.

Lemma join_printable (parts : list string) :
  forallb all_printable parts = true ->
  all_printable (join ", " parts) = true.
Proof.
  induction parts as [|p rest IH]; [reflexivity|].
  cbn [forallb]. intros H. apply andb_prop in H as [Hp Hrest].
  destruct rest as [|q rest]; [exact Hp|].
  change (join ", " (p :: q :: rest)) with (p ++ ", " ++ join ", " (q :: rest)).
  now rewrite !all_printable_app, Hp, (IH Hrest).
Qed.

Lemma all_printable_wrap (a b x : string) :
  all_printable a = true -> all_printable b = true ->
  all_printable x = true -> all_printable (a ++ x ++ b) = true.
Proof. intros Ha Hb Hx. now rewrite !all_printable_app, Ha, Hb, Hx. Qed.

(** What [json.dumps] writes is printable ASCII: no newline, no carriage
    return, nothing outside space to tilde. *)
Lemma json_dumps_printable : forall v j,
  floats_printable v = true -> json_dumps v = Ok j ->
  all_printable j = true.
Proof.
  fix IH 1. intros v. destruct v as [|b|z|r|s|b|l|kv]; intros j Hf;
    cbn [json_dumps].
  - now intros [= <-].
  - destruct b; now intros [= <-].
  - intros [= <-]. apply str_int_printable.
  - intros [= <-]. apply json_float_printable, Hf.
  - intros [= <-]. apply json_string_printable.
  - discriminate.
  - assert (Hl : forall parts, sequence (map json_dumps l) = Ok parts ->
                 forallb all_printable parts = true).
    { cbn [floats_printable] in Hf. induction l as [|x l IHl];
        intros parts; cbn [map sequence].
      - now intros [= <-].
      - cbn [forallb] in Hf. apply andb_prop in Hf as [Hx Hl].
        destruct (json_dumps x) as [sx|e] eqn:Hsx; [|discriminate].
        cbn [ResultMonad.bind].
        destruct (sequence (map json_dumps l)) as [ps|e]; [|discriminate].
        cbn [ResultMonad.bind]. intros [= <-]. cbn [forallb].
        now rewrite (IH x sx Hx Hsx), (IHl Hl ps eq_refl). }
    destruct (sequence (map json_dumps l)) as [parts|e]; [|discriminate].
    cbn [ResultMonad.bind]. intros [= <-].
    apply (all_printable_wrap "[" "]"); try reflexivity.
    apply join_printable, Hl; reflexivity.
  - assert (Hl : forall parts,
               sequence
                 (map (fun p =>
                         (s <- json_dumps (snd p) ;;
                          Ok (json_string (fst p) ++ ": " ++ s))%result)
                      kv) = Ok parts ->
               forallb all_printable parts = true).
    { cbn [floats_printable] in Hf. induction kv as [|[k x] kv IHl];
        intros parts; cbn [map sequence fst snd].
      - now intros [= <-].
      - cbn [forallb snd] in Hf. apply andb_prop in Hf as [Hx Hl].
        destruct (json_dumps x) as [sx|e] eqn:Hsx; [|discriminate].
        cbn [ResultMonad.bind].
        destruct (sequence _) as [ps|e]; [|discriminate].
        cbn [ResultMonad.bind]. intros [= <-]. cbn [forallb].
        assert (Hk : all_printable (json_string k ++ ": " ++ sx) = true)
          by (now rewrite !all_printable_app, json_string_printable,
                          (IH x sx Hx Hsx)).
        apply andb_true_intro. split; [exact Hk | exact (IHl Hl ps eq_refl)]. }
    destruct (sequence _) as [parts|e]; [|discriminate].
    cbn [ResultMonad.bind]. intros [= <-].
    apply (all_printable_wrap "{" "}"); try reflexivity.
    apply join_printable, Hl; reflexivity.
Qed.

Lemma first_chunk_dumps (uuid4 : string) (now : Z) (content : value) :
  match json_dumps content with
  | Ok _ =>
      exists j1,
        json_dumps (chunk uuid4 now (PyDict [("content", content)]) PyNone)
        = Ok j1
  | Raise e =>
      json_dumps (chunk uuid4 now (PyDict [("content", content)]) PyNone)
      = Raise e
  end.
Proof.
  destruct (json_dumps content) as [jc|e] eqn:Hc.
  - apply (json_dumps_chunk uuid4 now _ PyNone
             ("{" ++ json_string "content" ++ ": " ++ jc ++ "}") "null");
      [|reflexivity].
    rewrite json_dumps_content, Hc. reflexivity.
  - apply json_dumps_chunk_raise. rewrite json_dumps_content, Hc. reflexivity.
Qed.

(** For every content, serialisable or not, the generator ends normally;
    it yields three frames when [json.dumps] accepts the content and two
    when it does not, and the last frame is always the sentinel. *)
Theorem stream_always_ends_with_sentinel
    (uuid4 : string) (now : Z) (response_content : value) (rid : string) :
  let run := simulate_streaming_response uuid4 now response_content rid in
  outcome run = Ok tt
  /\ List.length (emitted run)
     = match json_dumps response_content with
       | Ok _ => 3%nat
       | Raise _ => 2%nat
       end
  /\ last (emitted run) EmptyString = "data: [DONE]" ++ nl ++ nl.
Proof.
  cbv zeta.
  destruct (json_dumps_chunk uuid4 now (PyDict []) (PyStr "stop")
              _ _ eq_refl eq_refl) as [j2 H2].
  pose proof (first_chunk_dumps uuid4 now response_content) as H1.
  destruct (json_dumps response_content) as [jc|e].
  - destruct H1 as [j1 H1].
    rewrite (simulate_streaming_response_ok _ _ _ rid _ _ H1 H2).
    repeat split.
  - destruct (json_dumps_chunk uuid4 now
                (PyDict [("content", PyStr ("Error: " ++ str_exn e))])
                (PyStr "stop") _ _ (json_dumps_content _) eq_refl)
      as [je He].
    rewrite (simulate_streaming_response_raise _ _ _ rid _ e H1 He).
    repeat split.
Qed.

Lemma floats_printable_chunk (uuid4 : string) (now : Z) (delta fr : value) :
  floats_printable delta = true -> floats_printable fr = true ->
  floats_printable (chunk uuid4 now delta fr) = true.
Proof.
  intros Hd Hf. unfold chunk. cbn [floats_printable forallb snd].
  now rewrite Hd, Hf.
Qed.

(** Every frame of the stream is ["data: "], then a payload of printable
    ASCII characters, then two newlines: whatever the content holds
    (newlines, quotes, control characters), nothing in a payload can end
    a frame early. *)
Theorem stream_frames_are_single_lines
    (uuid4 : string) (now : Z) (response_content : value) (rid : string)
    (Hfloats : floats_printable response_content = true) :
  Forall (fun frame =>
            exists payload,
              frame = "data: " ++ payload ++ nl ++ nl
              /\ all_printable payload = true)
         (emitted (simulate_streaming_response uuid4 now response_content
                     rid)).
Proof.
  destruct (json_dumps_chunk uuid4 now (PyDict []) (PyStr "stop")
              _ _ eq_refl eq_refl) as [j2 H2].
  assert (P2 : all_printable j2 = true).
  { apply (json_dumps_printable _ _ (floats_printable_chunk uuid4 now
             (PyDict []) (PyStr "stop") eq_refl eq_refl) H2). }
  assert (PD : exists payload,
             DONE = "data: " ++ payload ++ nl ++ nl
             /\ all_printable payload = true)
    by (exists "[DONE]"; split; reflexivity).
  pose proof (first_chunk_dumps uuid4 now response_content) as H1.
  destruct (json_dumps response_content) as [jc|e].
  - destruct H1 as [j1 H1].
    rewrite (simulate_streaming_response_ok _ _ _ rid _ _ H1 H2).
    cbn [emitted fst]. repeat constructor; [| |exact PD].
    + exists j1. split; [reflexivity|].
      apply (json_dumps_printable _ _ (floats_printable_chunk uuid4 now
               (PyDict [("content", response_content)]) PyNone
               ltac:(cbn [floats_printable forallb snd]; now rewrite Hfloats)
               eq_refl) H1).
    + exists j2. split; [reflexivity | exact P2].
  - destruct (json_dumps_chunk uuid4 now
                (PyDict [("content", PyStr ("Error: " ++ str_exn e))])
                (PyStr "stop") _ _ (json_dumps_content _) eq_refl)
      as [je He].
    rewrite (simulate_streaming_response_raise _ _ _ rid _ e H1 He).
    cbn [emitted fst]. repeat constructor; [|exact PD].
    exists je. split; [reflexivity|].
    apply (json_dumps_printable _ _ (floats_printable_chunk uuid4 now
             (PyDict [("content", PyStr ("Error: " ++ str_exn e))])
             (PyStr "stop") eq_refl eq_refl) He).
Qed.

Lemma stream_frames_are_single_lines_witness :
  Forall (fun frame =>
            exists payload,
              frame = "data: " ++ payload ++ nl ++ nl
              /\ all_printable payload = true)
         (emitted (simulate_streaming_response "0123456789abcdef" 1700000000
                     (PyStr ("line one" ++ nl ++ nl ++ "data: [DONE]"))
                     "01234567")).
Proof.
  exact (stream_frames_are_single_lines "0123456789abcdef" 1700000000
           (PyStr ("line one" ++ nl ++ nl ++ "data: [DONE]")) "01234567"
           eq_refl).
Defined.

(** ** The test client on the gateway's stream *)

Lemma printable_not_newline (n : N) :
  printable_ascii n = true -> (n =? 10)%N = false /\ (n =? 13)%N = false.
Proof.
  unfold printable_ascii. intros H. apply andb_prop in H as [H _].
  apply N.leb_le in H. split; apply N.eqb_neq; lia.
Qed.

Lemma splitlines_from_printable (j : string) :
  forall cur rest,
    all_printable j = true ->
    splitlines_from cur (j ++ rest) = splitlines_from (cur ++ j) rest.
Proof.
  induction j as [|a j IH]; intros cur rest H.
  - cbn [append]. f_equal.
    clear. induction cur as [|c cur IH]; simpl; congruence.
  - cbn [all_printable] in H. apply andb_prop in H as [Ha Hj].
    destruct (printable_not_newline _ Ha) as [H10 H13].
    cbn [append splitlines_from]. rewrite H10, H13, (IH _ _ Hj).
    f_equal. rewrite append_assoc. reflexivity.
Qed.

(** A frame with a printable payload is one line and one empty line. *)
Lemma splitlines_frame (j rest : string) :
  all_printable j = true ->
  splitlines_from EmptyString (data_frame j ++ rest)
  = ("data: " ++ j) :: EmptyString :: splitlines_from EmptyString rest.
Proof.
  intros H. unfold data_frame.
  replace (("data: " ++ j ++ nl ++ nl) ++ rest)
    with (("data: " ++ j) ++ (nl ++ nl ++ rest))
    by (now rewrite !append_assoc).
  rewrite splitlines_from_printable.
  - reflexivity.
  - now rewrite all_printable_app, H.
Qed.

(** A serialised chunk opens with its ["id"] key. *)
Lemma json_dumps_chunk_head (uuid4 : string) (now : Z) (delta fr : value)
    (j : string) :
  json_dumps (chunk uuid4 now delta fr) = Ok j ->
  exists tail, j = String "{" (String dquote (String "i" tail)).
Proof.
  unfold chunk. cbn [json_dumps map sequence ResultMonad.bind fst snd].
  destruct (json_dumps delta); [|discriminate].
  destruct (json_dumps fr); [|discriminate].
  cbn [ResultMonad.bind]. intros [= <-]. eexists. reflexivity.
Qed.

Section ClientOnStream.

Variable decode : string -> result string.
Hypothesis decode_ascii :
  forall s, all_printable s = true -> decode s = Ok s.

(** A chunk line is counted and the loop goes on. *)
Lemma stream_loop_chunk (uuid4 : string) (now : Z) (delta fr : value)
    (j : string) (rest : list string) (n : nat) :
  json_dumps (chunk uuid4 now delta fr) = Ok j ->
  all_printable j = true ->
  stream_loop decode (("data: " ++ j) :: EmptyString :: rest) n
  = stream_loop decode rest (n + 1).
Proof.
  intros Hj Hp. cbn [stream_loop].
  change (truthy (PyBytes ("data: " ++ j))) with true.
  change (truthy (PyBytes EmptyString)) with false. cbv iota.
  rewrite decode_ascii by (now rewrite all_printable_app, Hp).
  cbn [ResultMonad.bind]. rewrite startswith_app.
  change 6%nat with (String.length "data: "). rewrite slice_from_app.
  destruct (json_dumps_chunk_head _ _ _ _ _ Hj) as [tail ->].
  reflexivity.
Qed.

(** The loop of the test client, run on the lines of the stream the
    generator yields, never takes a line for an error report: it counts
    every chunk, two for a content [json.dumps] accepts and the one error
    chunk otherwise, stops at the sentinel, and the test passes. *)
Theorem test_client_counts_chunks_until_done
    (uuid4 : string) (now : Z) (response_content : value) (rid : string)
    (Hfloats : floats_printable response_content = true) :
  let body :=
    stream_body
      (emitted (simulate_streaming_response uuid4 now response_content rid))
  in
  stream_loop decode (iter_lines body) 0
  = Ok (SawDone (match json_dumps response_content with
                 | Ok _ => 2
                 | Raise _ => 1
                 end))
  /\ test_chat_streaming decode
       (Ok {| reply_status := 200; reply_body := body |}) = true.
Proof.
  cbv zeta.
  assert (Hdone : forall n,
             stream_loop decode (iter_lines DONE) n = Ok (SawDone n)).
  { intros n. cbn [iter_lines DONE]. change (iter_lines DONE)
      with ["data: [DONE]"; EmptyString]. cbn [stream_loop].
    change (truthy (PyBytes "data: [DONE]")) with true. cbv iota.
    rewrite decode_ascii by reflexivity. reflexivity. }
  destruct (json_dumps_chunk uuid4 now (PyDict []) (PyStr "stop")
              _ _ eq_refl eq_refl) as [j2 H2].
  assert (P2 : all_printable j2 = true).
  { apply (json_dumps_printable _ _ (floats_printable_chunk uuid4 now
             (PyDict []) (PyStr "stop") eq_refl eq_refl) H2). }
  pose proof (first_chunk_dumps uuid4 now response_content) as H1.
  assert (Hloop :
    stream_loop decode
      (iter_lines
         (stream_body
            (emitted (simulate_streaming_response uuid4 now
                        response_content rid)))) 0
    = Ok (SawDone (match json_dumps response_content with
                   | Ok _ => 2
                   | Raise _ => 1
                   end))).
  { destruct (json_dumps response_content) as [jc|e].
    - destruct H1 as [j1 H1].
      assert (P1 : all_printable j1 = true).
      { apply (json_dumps_printable _ _ (floats_printable_chunk uuid4 now
                 (PyDict [("content", response_content)]) PyNone
                 ltac:(cbn [floats_printable forallb snd];
                       now rewrite Hfloats)
                 eq_refl) H1). }
      rewrite (simulate_streaming_response_ok _ _ _ rid _ _ H1 H2).
      cbn [emitted fst stream_body concat_all]. unfold iter_lines.
      rewrite (splitlines_frame _ _ P1), (splitlines_frame _ _ P2).
      rewrite (stream_loop_chunk _ _ _ _ _ _ _ H1 P1),
              (stream_loop_chunk _ _ _ _ _ _ _ H2 P2).
      replace (DONE ++ EmptyString) with DONE by reflexivity.
      apply (Hdone 2%nat).
    - destruct (json_dumps_chunk uuid4 now
                  (PyDict [("content", PyStr ("Error: " ++ str_exn e))])
                  (PyStr "stop") _ _ (json_dumps_content _) eq_refl)
        as [je He].
      assert (Pe : all_printable je = true).
      { apply (json_dumps_printable _ _ (floats_printable_chunk uuid4 now
                 (PyDict [("content", PyStr ("Error: " ++ str_exn e))])
                 (PyStr "stop") eq_refl eq_refl) He). }
      rewrite (simulate_streaming_response_raise _ _ _ rid _ e H1 He).
      cbn [emitted fst stream_body concat_all]. unfold iter_lines.
      rewrite (splitlines_frame _ _ Pe).
      rewrite (stream_loop_chunk _ _ _ _ _ _ _ He Pe).
      replace (DONE ++ EmptyString) with DONE by reflexivity.
      apply (Hdone 1%nat). }
  split; [exact Hloop|].
  unfold test_chat_streaming. cbn [reply_status reply_body]. cbv iota.
  change (200 =? 200) with true. cbv iota. rewrite Hloop. reflexivity.
Qed.

End ClientOnStream.

Lemma test_client_counts_chunks_until_done_witness :
  stream_loop (fun s => Ok s)
    (iter_lines
       (stream_body
          (emitted (simulate_streaming_response "0123456789abcdef"
                      1700000000 (PyStr ("two" ++ nl ++ "lines"))
                      "01234567")))) 0
  = Ok (SawDone 2).
Proof.
  exact (proj1 (test_client_counts_chunks_until_done (fun s => Ok s)
                  (fun s _ => eq_refl) "0123456789abcdef" 1700000000
                  (PyStr ("two" ++ nl ++ "lines")) "01234567" eq_refl)).
Defined.
